(** * The friends / presence / chat controller of the study companion

    A shallow embedding of [src/context/FriendsContext.tsx] (the revision
    whose loaders make a second round trip to the user directory) and of
    its sibling revision (whose loaders let the backend embed the user
    through a foreign key), over a model of the hosted relational backend
    the controller talks to.

    - the remote tables are lists of rows, in storage order;
    - every call on the backend client is one round trip: it may report an
      error (the backend is unreachable, the query is refused) and is
      recorded in a journal;
    - the controller's React state (the four mirrors and [isLoading]) is a
      record updated by the setters;
    - the functions of one render close over [user]: it is an explicit
      argument of each of them. *)

From Stdlib Require Import List String ZArith NArith Bool Lia.
From Stdlib Require Import Permutation Sorted DecimalString.
Import ListNotations.
Open Scope string_scope.
Open Scope list_scope.

(** ** Data model *)

(** Keys are uuid strings; only equality is ever used on them. *)
Definition Id := string.

(** Timestamps (timestamptz columns, [Date] values): milliseconds since the
    epoch. *)
Definition Timestamp := Z.

Inductive RequestStatus := pending | accepted | rejected.
Inductive StudyStatus := studying | on_break | offline.

(** The remote tables, with the columns the controller selects. *)
Module FriendsRow.
Record t := mk
  { id : Id; user_id : Id; friend_id : Id; created_at : Timestamp }.
End FriendsRow.

Module FriendRequestsRow.
Record t := mk
  { id : Id; sender_id : Id; receiver_id : Id;
    status : RequestStatus; created_at : Timestamp }.
End FriendRequestsRow.

Module StudySessionsRow.
Record t := mk
  { id : Id; user_id : Id; status : StudyStatus; subject : option string;
    started_at : Timestamp; last_active : Timestamp }.
End StudySessionsRow.

Module GroupMessagesRow.
Record t := mk
  { id : Id; user_id : Id; message : string; mentions : option (list Id);
    created_at : Timestamp }.
End GroupMessagesRow.

(** The user directory. A name or email that is null reads like the empty
    string through [||], the only way the controller looks at them. *)
Module UsersRow.
Record t := mk { id : Id; name : string; email : string }.
End UsersRow.

(** The entities of the mirrors (the controller's [Friend],
    [FriendRequest], [StudySession] and [GroupMessage]). *)
Module Friend.
Record t := mk
  { id : Id; user_id : Id; friend_id : Id;
    friend_name : string; friend_email : string; created_at : Timestamp }.
End Friend.

Module FriendRequest.
Record t := mk
  { id : Id; sender_id : Id; receiver_id : Id;
    sender_name : string; sender_email : string;
    status : RequestStatus; created_at : Timestamp }.
End FriendRequest.

Module StudySession.
Record t := mk
  { id : Id; user_id : Id; user_name : string; status : StudyStatus;
    subject : option string; started_at : Timestamp;
    last_active : Timestamp }.
End StudySession.

Module GroupMessage.
Record t := mk
  { id : Id; user_id : Id; user_name : string; message : string;
    mentions : list Id; created_at : Timestamp }.
End GroupMessage.

(** ** The backend *)

Inductive Table :=
  | friends_table | friend_requests_table | study_sessions_table
  | group_messages_table | users_table.

Inductive Verb := SELECT | INSERT | UPDATE | DELETE | UPSERT.

(** What the journal keeps of a round trip. *)
Record Event := mkEvent { verb : Verb; table : Table; failed : bool }.

Definition is_write (e : Event) : bool :=
  match verb e with SELECT => false | _ => true end.

(** A change-notification subscription: channel topic, the change events
    it listens to ([None] is the wildcard) and the watched table. *)
Record Subscription :=
  mkSubscription { topic : string; event : option Verb; watched : Table }.

Module Remote.
Record t := mk
  { friends : list FriendsRow.t;
    friend_requests : list FriendRequestsRow.t;
    study_sessions : list StudySessionsRow.t;
    group_messages : list GroupMessagesRow.t;
    users : list UsersRow.t;
    (** the channels currently subscribed *)
    channels : list Subscription;
    (** for each coming round trip, whether it reports an error; none
        does once the list is exhausted *)
    outages : list bool;
    (** the round trips made so far, oldest first *)
    journal : list Event;
    (** state of the key generator *)
    serial : N;
    (** the server's clock, for the timestamp defaults *)
    now : Timestamp }.

Definition with_friends (l : list FriendsRow.t) (r : t) : t :=
  mk l (friend_requests r) (study_sessions r) (group_messages r) (users r)
     (channels r) (outages r) (journal r) (serial r) (now r).
Definition with_friend_requests (l : list FriendRequestsRow.t) (r : t) : t :=
  mk (friends r) l (study_sessions r) (group_messages r) (users r)
     (channels r) (outages r) (journal r) (serial r) (now r).
Definition with_study_sessions (l : list StudySessionsRow.t) (r : t) : t :=
  mk (friends r) (friend_requests r) l (group_messages r) (users r)
     (channels r) (outages r) (journal r) (serial r) (now r).
Definition with_group_messages (l : list GroupMessagesRow.t) (r : t) : t :=
  mk (friends r) (friend_requests r) (study_sessions r) l (users r)
     (channels r) (outages r) (journal r) (serial r) (now r).
Definition with_channels (l : list Subscription) (r : t) : t :=
  mk (friends r) (friend_requests r) (study_sessions r) (group_messages r)
     (users r) l (outages r) (journal r) (serial r) (now r).
Definition with_serial (n : N) (r : t) : t :=
  mk (friends r) (friend_requests r) (study_sessions r) (group_messages r)
     (users r) (channels r) (outages r) (journal r) n (now r).

(** One round trip: the next outage flag is consumed and the call is
    journalled with its outcome. *)
Definition travelled (e : Event) (r : t) : t :=
  mk (friends r) (friend_requests r) (study_sessions r) (group_messages r)
     (users r) (channels r) (tl (outages r)) (journal r ++ [e]) (serial r)
     (now r).

Definition unreachable (r : t) : bool := hd false (outages r).
End Remote.

(** The controller's React state. *)
Module Mirror.
Record t := mk
  { friends : list Friend.t;
    friendRequests : list FriendRequest.t;
    studySessions : list StudySession.t;
    groupMessages : list GroupMessage.t;
    isLoading : bool }.

(** [useState] initial values. *)
Definition initial : t := mk [] [] [] [] false.
End Mirror.

(** The controller and the backend it talks to. *)
Record Sys := mkSys { ui : Mirror.t; net : Remote.t }.

(** ** A state monad for the asynchronous functions

    An [await]ed call runs to completion before the caller goes on, so an
    [async] function is a state transformer over [Sys]. *)
Definition M (A : Type) : Type := Sys -> A * Sys.

Definition ret {A} (a : A) : M A := fun s => (a, s).
Definition bind {A B} (m : M A) (k : A -> M B) : M B :=
  fun s => let (a, s') := m s in k a s'.

Notation "x <- m ;; k" := (bind m (fun x => k))
  (at level 61, m at next level, right associativity).
Notation "m ;;; k" := (bind m (fun _ => k))
  (at level 61, right associativity).

Definition result {A} (m : M A) (s : Sys) : A := fst (m s).
Definition after {A} (m : M A) (s : Sys) : Sys := snd (m s).

(** The setters of the React state. *)
Definition setFriends (l : list Friend.t) : M unit := fun s =>
  (tt, mkSys (Mirror.mk l (Mirror.friendRequests (ui s))
                (Mirror.studySessions (ui s)) (Mirror.groupMessages (ui s))
                (Mirror.isLoading (ui s))) (net s)).
Definition setFriendRequests (l : list FriendRequest.t) : M unit := fun s =>
  (tt, mkSys (Mirror.mk (Mirror.friends (ui s)) l
                (Mirror.studySessions (ui s)) (Mirror.groupMessages (ui s))
                (Mirror.isLoading (ui s))) (net s)).
Definition setStudySessions (l : list StudySession.t) : M unit := fun s =>
  (tt, mkSys (Mirror.mk (Mirror.friends (ui s)) (Mirror.friendRequests (ui s))
                l (Mirror.groupMessages (ui s))
                (Mirror.isLoading (ui s))) (net s)).
Definition setGroupMessages (l : list GroupMessage.t) : M unit := fun s =>
  (tt, mkSys (Mirror.mk (Mirror.friends (ui s)) (Mirror.friendRequests (ui s))
                (Mirror.studySessions (ui s)) l
                (Mirror.isLoading (ui s))) (net s)).
Definition setIsLoading (b : bool) : M unit := fun s =>
  (tt, mkSys (Mirror.mk (Mirror.friends (ui s)) (Mirror.friendRequests (ui s))
                (Mirror.studySessions (ui s)) (Mirror.groupMessages (ui s))
                b) (net s)).

(** ** The backend client

    What a call on the client resolves to: [data] is null when [error] is
    set. *)
Inductive PostgrestError := transport_failure | not_a_single_row.

Record Response (A : Type) :=
  mkResponse { data : option A; error : option PostgrestError }.
Arguments mkResponse {A} _ _.
Arguments data {A} _.
Arguments error {A} _.

Definition is_error {A} (r : Response A) : bool :=
  match error r with Some _ => true | None => false end.

(** [from(tbl).select(..)] with its filters: the rows of the table that
    pass them. *)
Definition select {A} (tbl : Table) (rows : Remote.t -> list A)
  : M (Response (list A)) := fun s =>
  let r := net s in
  if Remote.unreachable r
  then (mkResponse None (Some transport_failure),
        mkSys (ui s) (Remote.travelled (mkEvent SELECT tbl true) r))
  else (mkResponse (Some (rows r)) None,
        mkSys (ui s) (Remote.travelled (mkEvent SELECT tbl false) r)).

(** [.single()]: the result must be exactly one row, else the call
    resolves to an error and null data. *)
Definition select_single {A} (tbl : Table) (rows : Remote.t -> list A)
  : M (Response A) := fun s =>
  let r := net s in
  if Remote.unreachable r
  then (mkResponse None (Some transport_failure),
        mkSys (ui s) (Remote.travelled (mkEvent SELECT tbl true) r))
  else match rows r with
       | [row] =>
           (mkResponse (Some row) None,
            mkSys (ui s) (Remote.travelled (mkEvent SELECT tbl false) r))
       | _ =>
           (mkResponse None (Some not_a_single_row),
            mkSys (ui s) (Remote.travelled (mkEvent SELECT tbl true) r))
       end.

(** A write: nothing is written when the call reports an error. *)
Definition write (v : Verb) (tbl : Table) (change : Remote.t -> Remote.t)
  : M (option PostgrestError) := fun s =>
  let r := net s in
  if Remote.unreachable r
  then (Some transport_failure,
        mkSys (ui s) (Remote.travelled (mkEvent v tbl true) r))
  else (None,
        mkSys (ui s) (Remote.travelled (mkEvent v tbl false) (change r))).

(** The key the database gives the next inserted row. *)
Definition mint (n : N) : Id := NilZero.string_of_uint (N.to_uint n).

(** Filters. *)
Definition among (ids : list Id) (x : Id) : bool := existsb (String.eqb x) ids.

(** The filter both [sendFriendRequest] and [removeFriend] pass to [.or]:
    [and(user_id.eq.a,friend_id.eq.b),and(user_id.eq.b,friend_id.eq.a)]. *)
Definition links (a b : Id) (f : FriendsRow.t) : bool :=
  (String.eqb (FriendsRow.user_id f) a && String.eqb (FriendsRow.friend_id f) b)
  || (String.eqb (FriendsRow.user_id f) b && String.eqb (FriendsRow.friend_id f) a).

(** [.order('created_at', { ascending: false })]: a stable sort, newest
    first. *)
Fixpoint newest_first_insert (m : GroupMessagesRow.t)
    (l : list GroupMessagesRow.t) : list GroupMessagesRow.t :=
  match l with
  | [] => [m]
  | x :: rest =>
      if (GroupMessagesRow.created_at x <=? GroupMessagesRow.created_at m)%Z
      then m :: l
      else x :: newest_first_insert m rest
  end.

Definition newest_first (l : list GroupMessagesRow.t)
  : list GroupMessagesRow.t := fold_right newest_first_insert [] l.

(** JavaScript's [s || d] on a string that may be missing: the empty
    string is falsy. *)
Definition or_else (s : option string) (d : string) : string :=
  match s with
  | Some EmptyString | None => d
  | Some str => str
  end.

(** [usersData?.find(u => u.id === id)] *)
Definition find_user (usersData : option (list UsersRow.t)) (id : Id)
  : option UsersRow.t :=
  match usersData with
  | Some l => find (fun u => String.eqb (UsersRow.id u) id) l
  | None => None
  end.

(** [[...new Set(ids)]]: first occurrences, in order. *)
Fixpoint distinct (ids : list Id) : list Id :=
  match ids with
  | [] => []
  | x :: rest => x :: filter (fun y => negb (String.eqb y x)) (distinct rest)
  end.

(** ** The mutation operations and the subscriptions

    From [setupRealtimeSubscriptions] to [sendGroupMessage] the two
    revisions are the same text; the functions are written once, over the
    loaders of the revision they belong to. *)
Module Operations.

(** Modelled from the spec: the column defaults of the schema, which is not
    part of the sources. A new row gets its key and [created_at] from the
    database, and a friend request starts [pending] (initial state
    [pending] of the request's state machine). *)
Definition insert_request (sender receiver : Id) (db : Remote.t) : Remote.t :=
  Remote.with_serial (Remote.serial db + 1)
    (Remote.with_friend_requests
       (Remote.friend_requests db ++
        [FriendRequestsRow.mk (mint (Remote.serial db)) sender receiver
           pending (Remote.now db)])
       db).

(** The two rows [acceptFriendRequest] inserts in one statement. *)
Definition insert_friendship (sender receiver : Id) (db : Remote.t)
  : Remote.t :=
  Remote.with_serial (Remote.serial db + 2)
    (Remote.with_friends
       (Remote.friends db ++
        [FriendsRow.mk (mint (Remote.serial db)) receiver sender
           (Remote.now db);
         FriendsRow.mk (mint (Remote.serial db + 1)) sender receiver
           (Remote.now db)])
       db).

(** [.update({ status }).eq('id', requestId)] *)
Definition set_status (st : RequestStatus) (requestId : Id) (db : Remote.t)
  : Remote.t :=
  Remote.with_friend_requests
    (map (fun q =>
            if String.eqb (FriendRequestsRow.id q) requestId
            then FriendRequestsRow.mk (FriendRequestsRow.id q)
                   (FriendRequestsRow.sender_id q)
                   (FriendRequestsRow.receiver_id q) st
                   (FriendRequestsRow.created_at q)
            else q)
         (Remote.friend_requests db))
    db.

(** [.delete().or(..)] on the friend links between [a] and [b]. *)
Definition delete_links (a b : Id) (db : Remote.t) : Remote.t :=
  Remote.with_friends
    (filter (fun f => negb (links a b f)) (Remote.friends db)) db.

(** Modelled from the spec: the conflict target of the upsert, which the
    call leaves to the schema (study_sessions: upsert key = user_id). The
    row of the user, if there is one, takes the written columns and keeps
    the others; else a row is inserted, with the defaults for [id] and
    [started_at]. *)
Definition upsert_session (uid : Id) (st : StudyStatus)
    (subject : option string) (last_active : Timestamp) (db : Remote.t)
  : Remote.t :=
  if existsb (fun x => String.eqb (StudySessionsRow.user_id x) uid)
             (Remote.study_sessions db)
  then Remote.with_study_sessions
         (map (fun x =>
                 if String.eqb (StudySessionsRow.user_id x) uid
                 then StudySessionsRow.mk (StudySessionsRow.id x) uid st
                        subject (StudySessionsRow.started_at x) last_active
                 else x)
              (Remote.study_sessions db))
         db
  else Remote.with_serial (Remote.serial db + 1)
         (Remote.with_study_sessions
            (Remote.study_sessions db ++
             [StudySessionsRow.mk (mint (Remote.serial db)) uid st subject
                (Remote.now db) last_active])
            db).

Definition insert_message (uid : Id) (message : string) (mentions : list Id)
    (db : Remote.t) : Remote.t :=
  Remote.with_serial (Remote.serial db + 1)
    (Remote.with_group_messages
       (Remote.group_messages db ++
        [GroupMessagesRow.mk (mint (Remote.serial db)) uid message
           (Some mentions) (Remote.now db)])
       db).

(** [supabase.channel(topic).on('postgres_changes', ..).subscribe()] *)
Definition subscribe (sub : Subscription) : M Subscription := fun s =>
  (sub, mkSys (ui s)
          (Remote.with_channels (Remote.channels (net s) ++ [sub]) (net s))).

Definition same_subscription (a b : Subscription) : bool :=
  String.eqb (topic a) (topic b)
  && match event a, event b with
     | None, None => true
     | Some INSERT, Some INSERT | Some UPDATE, Some UPDATE
     | Some DELETE, Some DELETE | Some SELECT, Some SELECT
     | Some UPSERT, Some UPSERT => true
     | _, _ => false
     end
  && match watched a, watched b with
     | friends_table, friends_table
     | friend_requests_table, friend_requests_table
     | study_sessions_table, study_sessions_table
     | group_messages_table, group_messages_table
     | users_table, users_table => true
     | _, _ => false
     end.

Fixpoint without (sub : Subscription) (l : list Subscription)
  : list Subscription :=
  match l with
  | [] => []
  | x :: rest => if same_subscription x sub then rest else x :: without sub rest
  end.

Definition unsubscribe (sub : Subscription) : M unit := fun s =>
  (tt, mkSys (ui s)
         (Remote.with_channels (without sub (Remote.channels (net s)))
            (net s))).

(** The function [setupRealtimeSubscriptions] returns, when there is a
    user: it unsubscribes the three channels. *)
Definition setupRealtimeSubscriptions (user : option Id)
  : M (option (M unit)) :=
  match user with
  | None => ret None
  | Some _ =>
      friendRequestsSubscription <-
        subscribe (mkSubscription "friend_requests" None
                     friend_requests_table) ;;
      studySessionsSubscription <-
        subscribe (mkSubscription "study_sessions" None
                     study_sessions_table) ;;
      groupMessagesSubscription <-
        subscribe (mkSubscription "group_messages" (Some INSERT)
                     group_messages_table) ;;
      ret (Some (unsubscribe friendRequestsSubscription ;;;
                 unsubscribe studySessionsSubscription ;;;
                 unsubscribe groupMessagesSubscription))
  end.

Definition sendFriendRequest (user : option Id) (email : string) : M bool :=
  match user with
  | None => ret false
  | Some uid =>
      u <- select_single users_table (fun db =>
             map UsersRow.id
                 (filter (fun x => String.eqb (UsersRow.email x) email)
                         (Remote.users db))) ;;
      match error u, data u with
      | None, Some userData =>
          if String.eqb userData uid then ret false else
          existing <- select_single friends_table (fun db =>
                        map FriendsRow.id
                            (filter (links uid userData)
                                    (Remote.friends db))) ;;
          match data existing with
          | Some _ => ret false
          | None =>
              e <- write INSERT friend_requests_table
                     (insert_request uid userData) ;;
              match e with
              | Some _ => ret false
              | None => ret true
              end
          end
      | _, _ => ret false
      end
  end.

Section Reloading.

Variable loadFriends : option Id -> M unit.
Variable loadFriendRequests : option Id -> M unit.

Definition acceptFriendRequest (user : option Id) (requestId : Id) : M bool :=
  match user with
  | None => ret false
  | Some _ =>
      q <- select_single friend_requests_table (fun db =>
             filter (fun x => String.eqb (FriendRequestsRow.id x) requestId)
                    (Remote.friend_requests db)) ;;
      match error q, data q with
      | None, Some request =>
          friendError <- write INSERT friends_table
                           (insert_friendship
                              (FriendRequestsRow.sender_id request)
                              (FriendRequestsRow.receiver_id request)) ;;
          match friendError with
          | Some _ => ret false
          | None =>
              updateError <- write UPDATE friend_requests_table
                               (set_status accepted requestId) ;;
              match updateError with
              | Some _ => ret false
              | None =>
                  loadFriends user ;;;
                  loadFriendRequests user ;;;
                  ret true
              end
          end
      | _, _ => ret false
      end
  end.

Definition rejectFriendRequest (user : option Id) (requestId : Id) : M bool :=
  match user with
  | None => ret false
  | Some _ =>
      e <- write UPDATE friend_requests_table
             (set_status rejected requestId) ;;
      match e with
      | Some _ => ret false
      | None => loadFriendRequests user ;;; ret true
      end
  end.

Definition removeFriend (user : option Id) (friendId : Id) : M bool :=
  match user with
  | None => ret false
  | Some uid =>
      e <- write DELETE friends_table (delete_links uid friendId) ;;
      match e with
      | Some _ => ret false
      | None => loadFriends user ;;; ret true
      end
  end.

End Reloading.

(** [clock] is what [new Date()] reads when the function is called. *)
Definition updateStudyStatus (user : option Id) (clock : Timestamp)
    (st : StudyStatus) (subject : option string) : M unit :=
  match user with
  | None => ret tt
  | Some uid =>
      write UPSERT study_sessions_table
        (upsert_session uid st
           (match subject with
            | Some EmptyString | None => None
            | Some str => Some str
            end)
           clock) ;;;
      ret tt
  end.

Definition sendGroupMessage (user : option Id) (message : string)
    (mentions : option (list Id)) : M unit :=
  match user with
  | None => ret tt
  | Some uid =>
      write INSERT group_messages_table
        (insert_message uid message
           (match mentions with Some l => l | None => [] end)) ;;;
      ret tt
  end.

(** The provider, over the loaders of its revision.

    [loadFriendsData] fans the four loaders out; they read disjoint
    mirrors and write none of the tables, so running them one after the
    other gives the state the fan-out ends in. The effect does not wait
    for it. *)
Section Provider.

Variable loadFriends : option Id -> M unit.
Variable loadFriendRequests : option Id -> M unit.
Variable loadStudySessions : option Id -> list Friend.t -> M unit.
Variable loadGroupMessages : option Id -> M unit.

Definition loadFriendsData (user : option Id) (friends : list Friend.t)
  : M unit :=
  match user with
  | None => ret tt
  | Some _ =>
      setIsLoading true ;;;
      loadFriends user ;;;
      loadFriendRequests user ;;;
      loadStudySessions user friends ;;;
      loadGroupMessages user ;;;
      setIsLoading false
  end.

(** The function passed to [useEffect], with the dependency [user]. What
    it returns is what React keeps as the effect's cleanup: the function
    has no [return], in either branch. *)
Definition effect (user : option Id) : M (option (M unit)) := fun s =>
  match user with
  | Some _ =>
      (loadFriendsData user (Mirror.friends (ui s)) ;;;
       setupRealtimeSubscriptions user ;;;
       ret None) s
  | None =>
      (setFriends [] ;;;
       setFriendRequests [] ;;;
       setStudySessions [] ;;;
       setGroupMessages [] ;;;
       ret None) s
  end.

(** React's side: a mounted provider is its state and the cleanup of the
    effect's last run. *)
Record Mounted := mkMounted { cleanup : option (M unit); sys : Sys }.

Definition run_cleanup (p : Mounted) : Sys :=
  match cleanup p with
  | Some c => after c (sys p)
  | None => sys p
  end.

(** First render: the state is created, then the effect runs. *)
Definition mount (user : option Id) (db : Remote.t) : Mounted :=
  let (c, s) := effect user (mkSys Mirror.initial db) in mkMounted c s.

(** [user] changed: the previous cleanup runs, then the effect. *)
Definition rerender (user : option Id) (p : Mounted) : Mounted :=
  let (c, s) := effect user (run_cleanup p) in mkMounted c s.

(** The provider leaves the tree: the last cleanup runs. *)
Definition unmount (p : Mounted) : Sys := run_cleanup p.

End Provider.
End Operations.

(** ** The loaders of [src/context/FriendsContext.tsx]

    Each loader fetches its rows, then the users they refer to in a second
    round trip, joins the two in memory and replaces its mirror.
    [console.error] has no effect on the state and is left out. *)
Module TwoTrip.

Definition loadFriends (user : option Id) : M unit :=
  match user with
  | None => ret tt
  | Some uid =>
      r <- select friends_table (fun db =>
             filter (fun f => String.eqb (FriendsRow.user_id f) uid)
                    (Remote.friends db)) ;;
      if is_error r then ret tt else
      match data r with
      | None | Some [] => setFriends []
      | Some friendsData =>
          let friendIds := map FriendsRow.friend_id friendsData in
          u <- select users_table (fun db =>
                 filter (fun x => among friendIds (UsersRow.id x))
                        (Remote.users db)) ;;
          if is_error u then ret tt else
          let friendsWithDetails := map (fun f =>
            let friendUser := find_user (data u) (FriendsRow.friend_id f) in
            Friend.mk (FriendsRow.id f) (FriendsRow.user_id f)
              (FriendsRow.friend_id f)
              (or_else (option_map UsersRow.name friendUser) "Unknown")
              (or_else (option_map UsersRow.email friendUser) "")
              (FriendsRow.created_at f)) friendsData in
          setFriends friendsWithDetails
      end
  end.

Definition loadFriendRequests (user : option Id) : M unit :=
  match user with
  | None => ret tt
  | Some uid =>
      r <- select friend_requests_table (fun db =>
             filter (fun q =>
                       String.eqb (FriendRequestsRow.receiver_id q) uid
                       && match FriendRequestsRow.status q with
                          | pending => true
                          | _ => false
                          end)
                    (Remote.friend_requests db)) ;;
      if is_error r then ret tt else
      match data r with
      | None | Some [] => setFriendRequests []
      | Some requestsData =>
          let senderIds := map FriendRequestsRow.sender_id requestsData in
          u <- select users_table (fun db =>
                 filter (fun x => among senderIds (UsersRow.id x))
                        (Remote.users db)) ;;
          if is_error u then ret tt else
          let requestsWithDetails := map (fun q =>
            let senderUser :=
              find_user (data u) (FriendRequestsRow.sender_id q) in
            FriendRequest.mk (FriendRequestsRow.id q)
              (FriendRequestsRow.sender_id q) (FriendRequestsRow.receiver_id q)
              (or_else (option_map UsersRow.name senderUser) "Unknown")
              (or_else (option_map UsersRow.email senderUser) "")
              (FriendRequestsRow.status q)
              (FriendRequestsRow.created_at q)) requestsData in
          setFriendRequests requestsWithDetails
      end
  end.

(** [friends] is the mirror as the render that created the function saw
    it. *)
Definition loadStudySessions (user : option Id) (friends : list Friend.t)
  : M unit :=
  match user with
  | None => ret tt
  | Some uid =>
      let friendIds := map Friend.friend_id friends in
      let allUserIds := uid :: friendIds in
      r <- select study_sessions_table (fun db =>
             filter (fun x => among allUserIds (StudySessionsRow.user_id x))
                    (Remote.study_sessions db)) ;;
      if is_error r then ret tt else
      match data r with
      | None | Some [] => setStudySessions []
      | Some sessionsData =>
          let userIds := map StudySessionsRow.user_id sessionsData in
          u <- select users_table (fun db =>
                 filter (fun x => among userIds (UsersRow.id x))
                        (Remote.users db)) ;;
          if is_error u then ret tt else
          let sessionsWithDetails := map (fun x =>
            let sessionUser :=
              find_user (data u) (StudySessionsRow.user_id x) in
            StudySession.mk (StudySessionsRow.id x)
              (StudySessionsRow.user_id x)
              (or_else (option_map UsersRow.name sessionUser) "Unknown")
              (StudySessionsRow.status x) (StudySessionsRow.subject x)
              (StudySessionsRow.started_at x)
              (StudySessionsRow.last_active x)) sessionsData in
          setStudySessions sessionsWithDetails
      end
  end.

Definition loadGroupMessages (user : option Id) : M unit :=
  match user with
  | None => ret tt
  | Some _ =>
      r <- select group_messages_table (fun db =>
             firstn 50 (newest_first (Remote.group_messages db))) ;;
      if is_error r then ret tt else
      match data r with
      | None | Some [] => setGroupMessages []
      | Some messagesData =>
          let userIds := distinct (map GroupMessagesRow.user_id messagesData) in
          u <- select users_table (fun db =>
                 filter (fun x => among userIds (UsersRow.id x))
                        (Remote.users db)) ;;
          if is_error u then ret tt else
          let messagesWithDetails := map (fun m =>
            let messageUser :=
              find_user (data u) (GroupMessagesRow.user_id m) in
            GroupMessage.mk (GroupMessagesRow.id m)
              (GroupMessagesRow.user_id m)
              (or_else (option_map UsersRow.name messageUser) "Unknown")
              (GroupMessagesRow.message m)
              (match GroupMessagesRow.mentions m with
               | Some l => l
               | None => []
               end)
              (GroupMessagesRow.created_at m)) messagesData in
          setGroupMessages (rev messagesWithDetails)
      end
  end.

Definition acceptFriendRequest :=
  Operations.acceptFriendRequest loadFriends loadFriendRequests.
Definition rejectFriendRequest :=
  Operations.rejectFriendRequest loadFriendRequests.
Definition removeFriend := Operations.removeFriend loadFriends.
Definition effect :=
  Operations.effect loadFriends loadFriendRequests loadStudySessions
    loadGroupMessages.
Definition mount :=
  Operations.mount loadFriends loadFriendRequests loadStudySessions
    loadGroupMessages.
Definition rerender :=
  Operations.rerender loadFriends loadFriendRequests loadStudySessions
    loadGroupMessages.

End TwoTrip.

(** ** The loaders of the sibling revision

    One query per loader: the select list asks the backend to embed the
    referenced user ([friend:users!friends_friend_id_fkey(name, email)] and
    the like). The foreign keys are declared in the database schema;
    [embed db id] is the [users] row the backend embeds for the key [id],
    if any. *)
Module FkJoin.
Section Embedding.

Variable embed : Remote.t -> Id -> option UsersRow.t.

Definition loadFriends (user : option Id) : M unit :=
  match user with
  | None => ret tt
  | Some uid =>
      r <- select friends_table (fun db =>
             map (fun f => (f, embed db (FriendsRow.friend_id f)))
                 (filter (fun f => String.eqb (FriendsRow.user_id f) uid)
                         (Remote.friends db))) ;;
      if is_error r then ret tt else
      let friendsData :=
        match data r with
        | Some l => map (fun '(f, friend) =>
            Friend.mk (FriendsRow.id f) (FriendsRow.user_id f)
              (FriendsRow.friend_id f)
              (or_else (option_map UsersRow.name friend) "Unknown")
              (or_else (option_map UsersRow.email friend) "")
              (FriendsRow.created_at f)) l
        | None => []
        end in
      setFriends friendsData
  end.

Definition loadFriendRequests (user : option Id) : M unit :=
  match user with
  | None => ret tt
  | Some uid =>
      r <- select friend_requests_table (fun db =>
             map (fun q => (q, embed db (FriendRequestsRow.sender_id q)))
                 (filter (fun q =>
                            String.eqb (FriendRequestsRow.receiver_id q) uid
                            && match FriendRequestsRow.status q with
                               | pending => true
                               | _ => false
                               end)
                         (Remote.friend_requests db))) ;;
      if is_error r then ret tt else
      let requestsData :=
        match data r with
        | Some l => map (fun '(q, sender) =>
            FriendRequest.mk (FriendRequestsRow.id q)
              (FriendRequestsRow.sender_id q) (FriendRequestsRow.receiver_id q)
              (or_else (option_map UsersRow.name sender) "Unknown")
              (or_else (option_map UsersRow.email sender) "")
              (FriendRequestsRow.status q)
              (FriendRequestsRow.created_at q)) l
        | None => []
        end in
      setFriendRequests requestsData
  end.

Definition loadStudySessions (user : option Id) (friends : list Friend.t)
  : M unit :=
  match user with
  | None => ret tt
  | Some uid =>
      let friendIds := map Friend.friend_id friends in
      let allUserIds := uid :: friendIds in
      r <- select study_sessions_table (fun db =>
             map (fun x => (x, embed db (StudySessionsRow.user_id x)))
                 (filter (fun x =>
                            among allUserIds (StudySessionsRow.user_id x))
                         (Remote.study_sessions db))) ;;
      if is_error r then ret tt else
      let sessionsData :=
        match data r with
        | Some l => map (fun '(x, usr) =>
            StudySession.mk (StudySessionsRow.id x)
              (StudySessionsRow.user_id x)
              (or_else (option_map UsersRow.name usr) "Unknown")
              (StudySessionsRow.status x) (StudySessionsRow.subject x)
              (StudySessionsRow.started_at x)
              (StudySessionsRow.last_active x)) l
        | None => []
        end in
      setStudySessions sessionsData
  end.

Definition loadGroupMessages (user : option Id) : M unit :=
  match user with
  | None => ret tt
  | Some _ =>
      r <- select group_messages_table (fun db =>
             map (fun m => (m, embed db (GroupMessagesRow.user_id m)))
                 (firstn 50 (newest_first (Remote.group_messages db)))) ;;
      if is_error r then ret tt else
      let messagesData :=
        match data r with
        | Some l => map (fun '(m, usr) =>
            GroupMessage.mk (GroupMessagesRow.id m)
              (GroupMessagesRow.user_id m)
              (or_else (option_map UsersRow.name usr) "Unknown")
              (GroupMessagesRow.message m)
              (match GroupMessagesRow.mentions m with
               | Some l => l
               | None => []
               end)
              (GroupMessagesRow.created_at m)) l
        | None => []
        end in
      setGroupMessages (rev messagesData)
  end.

Definition acceptFriendRequest :=
  Operations.acceptFriendRequest loadFriends loadFriendRequests.
Definition rejectFriendRequest :=
  Operations.rejectFriendRequest loadFriendRequests.
Definition removeFriend := Operations.removeFriend loadFriends.
Definition effect :=
  Operations.effect loadFriends loadFriendRequests loadStudySessions
    loadGroupMessages.
Definition mount :=
  Operations.mount loadFriends loadFriendRequests loadStudySessions
    loadGroupMessages.
Definition rerender :=
  Operations.rerender loadFriends loadFriendRequests loadStudySessions
    loadGroupMessages.

End Embedding.
End FkJoin.

(** ** The two revisions side by side *)

Inductive Revision := two_trip | fk_join.

Inductive Loader :=
  | friends_loader | friend_requests_loader
  | study_sessions_loader | group_messages_loader.

(** A loader of a revision. [friends] is the mirror the render saw, which
    only the study-session loader reads; [embed] is the backend's
    foreign-key embedding, which only the sibling revision uses. *)
Definition load (rev : Revision) (embed : Remote.t -> Id -> option UsersRow.t)
    (l : Loader) (user : option Id) (friends : list Friend.t) : M unit :=
  match rev, l with
  | two_trip, friends_loader => TwoTrip.loadFriends user
  | two_trip, friend_requests_loader => TwoTrip.loadFriendRequests user
  | two_trip, study_sessions_loader => TwoTrip.loadStudySessions user friends
  | two_trip, group_messages_loader => TwoTrip.loadGroupMessages user
  | fk_join, friends_loader => FkJoin.loadFriends embed user
  | fk_join, friend_requests_loader => FkJoin.loadFriendRequests embed user
  | fk_join, study_sessions_loader =>
      FkJoin.loadStudySessions embed user friends
  | fk_join, group_messages_loader => FkJoin.loadGroupMessages embed user
  end.

Definition acceptFriendRequest (rev : Revision)
    (embed : Remote.t -> Id -> option UsersRow.t) :=
  match rev with
  | two_trip => TwoTrip.acceptFriendRequest
  | fk_join => FkJoin.acceptFriendRequest embed
  end.

Definition rejectFriendRequest (rev : Revision)
    (embed : Remote.t -> Id -> option UsersRow.t) :=
  match rev with
  | two_trip => TwoTrip.rejectFriendRequest
  | fk_join => FkJoin.rejectFriendRequest embed
  end.

Definition removeFriend (rev : Revision)
    (embed : Remote.t -> Id -> option UsersRow.t) :=
  match rev with
  | two_trip => TwoTrip.removeFriend
  | fk_join => FkJoin.removeFriend embed
  end.

Definition mount (rev : Revision)
    (embed : Remote.t -> Id -> option UsersRow.t) :=
  match rev with
  | two_trip => TwoTrip.mount
  | fk_join => FkJoin.mount embed
  end.

Definition rerender (rev : Revision)
    (embed : Remote.t -> Id -> option UsersRow.t) :=
  match rev with
  | two_trip => TwoTrip.rerender
  | fk_join => FkJoin.rerender embed
  end.

(** The foreign keys all refer to [users(id)]: the embedding the schema
    declares gives the directory's row for the key. *)
Definition directory_row (db : Remote.t) (id : Id) : option UsersRow.t :=
  find (fun u => String.eqb (UsersRow.id u) id) (Remote.users db).

(** ** Vocabulary of the properties *)

(** The round trips made between two states of the backend. *)
Definition since (before later : Remote.t) : list Event :=
  skipn (List.length (Remote.journal before)) (Remote.journal later).

Definition some_failed (l : list Event) : bool := existsb failed l.
Definition none_failed (l : list Event) : bool :=
  forallb (fun e => negb (failed e)) l.

(** The next [n] round trips report no error. *)
Definition reachable_for (n : nat) (db : Remote.t) : bool :=
  forallb negb (firstn n (Remote.outages db)).

(** Whether the round trip after the next one reports an error. *)
Definition second_trip_fails (db : Remote.t) : bool :=
  hd false (tl (Remote.outages db)).

(** The friend-link rows between two users, in either direction. *)
Definition links_between (a b : Id) (db : Remote.t) : list FriendsRow.t :=
  filter (links a b) (Remote.friends db).

(** The requests between two users, in either direction. *)
Definition requests_between (a b : Id) (db : Remote.t)
  : list FriendRequestsRow.t :=
  filter (fun q =>
            (String.eqb (FriendRequestsRow.sender_id q) a
             && String.eqb (FriendRequestsRow.receiver_id q) b)
            || (String.eqb (FriendRequestsRow.sender_id q) b
                && String.eqb (FriendRequestsRow.receiver_id q) a))
         (Remote.friend_requests db).

(** The users an email resolves to in the directory. *)
Definition resolve (email : string) (db : Remote.t) : list Id :=
  map UsersRow.id
      (filter (fun x => String.eqb (UsersRow.email x) email)
              (Remote.users db)).

(** The presence rows of a user. *)
Definition presence (uid : Id) (db : Remote.t) : list StudySessionsRow.t :=
  filter (fun x => String.eqb (StudySessionsRow.user_id x) uid)
         (Remote.study_sessions db).

(** A call of [updateStudyStatus]: the clock reading and the arguments. *)
Record StatusCall :=
  mkCall { at_time : Timestamp; to_status : StudyStatus;
           on_subject : option string }.

(** Successive calls by one user; the result is the [last_active] values
    of the user's presence rows after each call. *)
Fixpoint updates (uid : Id) (calls : list StatusCall) (s : Sys)
  : list (list Timestamp) * Sys :=
  match calls with
  | [] => ([], s)
  | c :: rest =>
      let s1 := after (Operations.updateStudyStatus (Some uid) (at_time c)
                         (to_status c) (on_subject c)) s in
      let (seen, s2) := updates uid rest s1 in
      (map StudySessionsRow.last_active (presence uid (net s1)) :: seen, s2)
  end.

(** What a fetched message and a mirrored message have in common. *)
Definition row_core (m : GroupMessagesRow.t) :=
  (GroupMessagesRow.id m, GroupMessagesRow.user_id m,
   GroupMessagesRow.message m, GroupMessagesRow.created_at m).
Definition message_core (m : GroupMessage.t) :=
  (GroupMessage.id m, GroupMessage.user_id m,
   GroupMessage.message m, GroupMessage.created_at m).

(** The three subscriptions [setupRealtimeSubscriptions] installs. *)
Definition installed : list Subscription :=
  [mkSubscription "friend_requests" None friend_requests_table;
   mkSubscription "study_sessions" None study_sessions_table;
   mkSubscription "group_messages" (Some INSERT) group_messages_table].

(** The rows of the five tables. *)
Definition tables (db : Remote.t) :=
  (Remote.friends db, Remote.friend_requests db, Remote.study_sessions db,
   Remote.group_messages db, Remote.users db).

(** Two operations do the same from a state: same return value, same
    tables afterwards, same writes sent to the backend. *)
Definition same_outcome (m1 m2 : M bool) (s : Sys) : Prop :=
  result m1 s = result m2 s
  /\ tables (net (after m1 s)) = tables (net (after m2 s))
  /\ filter is_write (since (net s) (net (after m1 s))) =
     filter is_write (since (net s) (net (after m2 s))).

(** [a] is at least as recent as [b]. *)
Definition not_older (a b : GroupMessagesRow.t) : Prop :=
  (GroupMessagesRow.created_at b <= GroupMessagesRow.created_at a)%Z.

(** A function that only fetches: the tables and the channels are as
    before, and the journal grows by [SELECT]s. *)
Definition reads_only (m : M unit) : Prop :=
  forall s,
    let db := net (after m s) in
    Remote.friends db = Remote.friends (net s)
    /\ Remote.friend_requests db = Remote.friend_requests (net s)
    /\ Remote.study_sessions db = Remote.study_sessions (net s)
    /\ Remote.group_messages db = Remote.group_messages (net s)
    /\ Remote.users db = Remote.users (net s)
    /\ Remote.channels db = Remote.channels (net s)
    /\ exists fetches,
         Remote.journal db = Remote.journal (net s) ++ fetches
         /\ filter is_write fetches = [].

(** The journal of [b] continues the journal of [a]. *)
Definition grows (a b : Remote.t) : Prop :=
  exists evs, Remote.journal b = Remote.journal a ++ evs.

(** ** Sample states *)

Definition ann : UsersRow.t := UsersRow.mk "A" "Ann" "ann@example.org".
Definition bob : UsersRow.t := UsersRow.mk "B" "" "bob@example.org".

(** Two users who have nothing to do with each other yet. *)
Definition strangers : Remote.t :=
  Remote.mk [] [] [] [] [ann; bob] [] [] [] 1%N 1000%Z.

(** The two are friends (one link per direction) and have written to the
    group. *)
Definition befriended : Remote.t :=
  Remote.mk
    [FriendsRow.mk "f1" "B" "A" 1500%Z; FriendsRow.mk "f2" "A" "B" 1500%Z]
    [FriendRequestsRow.mk "r1" "A" "B" accepted 1200%Z]
    []
    [GroupMessagesRow.mk "m1" "A" "hello" (Some []) 1600%Z;
     GroupMessagesRow.mk "m3" "A" "anyone?" None 1800%Z;
     GroupMessagesRow.mk "m2" "B" "hi" (Some ["A"]) 1700%Z]
    [ann; bob] [] [] [] 10%N 2000%Z.

(** The same backend, whose second coming round trip reports an error. *)
Definition flaky : Remote.t :=
  Remote.mk (Remote.friends befriended) (Remote.friend_requests befriended)
    (Remote.study_sessions befriended) (Remote.group_messages befriended)
    (Remote.users befriended) [] [false; true] [] 10%N 2000%Z.

(** A controller that has shown something already. *)
Definition shown : Mirror.t :=
  Mirror.mk [Friend.mk "f0" "A" "C" "Cy" "cy@example.org" 900%Z] []
    [] [GroupMessage.mk "m0" "C" "Cy" "old" [] 800%Z] false.

(** ** What a loader is meant to show

    The entities a mirror holds for a row, the user being looked up in the
    whole directory. *)
Definition friend_entry (db : Remote.t) (f : FriendsRow.t) : Friend.t :=
  Friend.mk (FriendsRow.id f) (FriendsRow.user_id f) (FriendsRow.friend_id f)
    (or_else (option_map UsersRow.name
                (directory_row db (FriendsRow.friend_id f))) "Unknown")
    (or_else (option_map UsersRow.email
                (directory_row db (FriendsRow.friend_id f))) "")
    (FriendsRow.created_at f).

Definition request_entry (db : Remote.t) (q : FriendRequestsRow.t)
  : FriendRequest.t :=
  FriendRequest.mk (FriendRequestsRow.id q) (FriendRequestsRow.sender_id q)
    (FriendRequestsRow.receiver_id q)
    (or_else (option_map UsersRow.name
                (directory_row db (FriendRequestsRow.sender_id q))) "Unknown")
    (or_else (option_map UsersRow.email
                (directory_row db (FriendRequestsRow.sender_id q))) "")
    (FriendRequestsRow.status q) (FriendRequestsRow.created_at q).

Definition session_entry (db : Remote.t) (x : StudySessionsRow.t)
  : StudySession.t :=
  StudySession.mk (StudySessionsRow.id x) (StudySessionsRow.user_id x)
    (or_else (option_map UsersRow.name
                (directory_row db (StudySessionsRow.user_id x))) "Unknown")
    (StudySessionsRow.status x) (StudySessionsRow.subject x)
    (StudySessionsRow.started_at x) (StudySessionsRow.last_active x).

Definition message_entry (db : Remote.t) (m : GroupMessagesRow.t)
  : GroupMessage.t :=
  GroupMessage.mk (GroupMessagesRow.id m) (GroupMessagesRow.user_id m)
    (or_else (option_map UsersRow.name
                (directory_row db (GroupMessagesRow.user_id m))) "Unknown")
    (GroupMessagesRow.message m)
    (match GroupMessagesRow.mentions m with Some l => l | None => [] end)
    (GroupMessagesRow.created_at m).

(** The rows each loader asks for. *)
Definition own_links (uid : Id) (db : Remote.t) : list FriendsRow.t :=
  filter (fun f => String.eqb (FriendsRow.user_id f) uid) (Remote.friends db).

Definition pending_for (uid : Id) (db : Remote.t)
  : list FriendRequestsRow.t :=
  filter (fun q =>
            String.eqb (FriendRequestsRow.receiver_id q) uid
            && match FriendRequestsRow.status q with
               | pending => true
               | _ => false
               end)
         (Remote.friend_requests db).

Definition sessions_of (ids : list Id) (db : Remote.t)
  : list StudySessionsRow.t :=
  filter (fun x => among ids (StudySessionsRow.user_id x))
         (Remote.study_sessions db).

(** The requests with a key. *)
Definition requests_with (requestId : Id) (db : Remote.t)
  : list FriendRequestsRow.t :=
  filter (fun x => String.eqb (FriendRequestsRow.id x) requestId)
         (Remote.friend_requests db).

(** The presence rows of the other users. *)
Definition presence_of_others (uid : Id) (db : Remote.t)
  : list StudySessionsRow.t :=
  filter (fun x => negb (String.eqb (StudySessionsRow.user_id x) uid))
         (Remote.study_sessions db).

(** [loadFriendsData] of a revision. *)
Definition loadFriendsData (rv : Revision)
    (embed : Remote.t -> Id -> option UsersRow.t) :=
  Operations.loadFriendsData
    (fun u => load rv embed friends_loader u [])
    (fun u => load rv embed friend_requests_loader u [])
    (fun u f => load rv embed study_sessions_loader u f)
    (fun u => load rv embed group_messages_loader u []).

(** ** The donor form ([src/components/DonatorForm.tsx])

    JavaScript strings are sequences of UTF-16 code units. *)
Module DonatorForm.

Definition JsString := list N.

(** The code units [String.prototype.trim] strips: the language's
    WhiteSpace and LineTerminator code points. *)
Definition is_white_space (c : N) : bool :=
  ((9 <=? c) && (c <=? 13)
   || (c =? 32) || (c =? 160) || (c =? 5760)
   || (8192 <=? c) && (c <=? 8202)
   || (c =? 8232) || (c =? 8233) || (c =? 8239) || (c =? 8287)
   || (c =? 12288) || (c =? 65279))%N.

Fixpoint trimStart (s : JsString) : JsString :=
  match s with
  | [] => []
  | c :: rest => if is_white_space c then trimStart rest else s
  end.

Definition trim (s : JsString) : JsString :=
  rev (trimStart (rev (trimStart s))).

(** JavaScript's [!s] on a string. *)
Definition falsy (s : JsString) : bool :=
  match s with [] => true | _ => false end.

(** The component's state, with what it has shown in [alert] boxes and
    the names it has passed to [onAdd], oldest first. *)
Record t := mk
  { donatorName : JsString;
    isSubmitting : bool;
    alerts : list string;
    added : list JsString }.

(** [useState] initial values. *)
Definition initial : t := mk [] false [] [].

(** The setters, [alert], and a call of the parent's [onAdd]. *)
Definition setDonatorName (name : JsString) (st : t) : t :=
  mk name (isSubmitting st) (alerts st) (added st).
Definition setIsSubmitting (b : bool) (st : t) : t :=
  mk (donatorName st) b (alerts st) (added st).
Definition alert (message : string) (st : t) : t :=
  mk (donatorName st) (isSubmitting st) (alerts st ++ [message]) (added st).
Definition calling (name : JsString) (st : t) : t :=
  mk (donatorName st) (isSubmitting st) (alerts st) (added st ++ [name]).

(** The state while [handleSubmit] awaits [onAdd], when it gets there. *)
Definition awaiting (st : t) : option t :=
  if falsy (trim (donatorName st)) then None
  else Some (calling (donatorName st) (setIsSubmitting true st)).

(** The form's [onSubmit]. [onAdd name] is what the promise of the
    parent's callback resolves to; [name] is the [donatorName] of the
    render the handler belongs to. *)
Definition handleSubmit (onAdd : JsString -> bool) (st : t) : t :=
  match awaiting st with
  | None => st
  | Some st1 =>
      let success := onAdd (donatorName st) in
      let st2 :=
        if success
        then alert
               "Thank you! Your name has been added to our supporters list."
               (setDonatorName [] st1)
        else alert "Failed to add your name. Please try again." st1 in
      setIsSubmitting false st2
  end.

(** The submit button's [disabled]. *)
Definition disabled (st : t) : bool :=
  isSubmitting st || falsy (trim (donatorName st)).

End DonatorForm.

(** ** More sample states *)

(** Ann has asked Bob, who has not answered; both are studying. *)
Definition courting : Remote.t :=
  Remote.mk []
    [FriendRequestsRow.mk "r1" "A" "B" pending 1200%Z]
    [StudySessionsRow.mk "s1" "A" studying (Some "maths") 1300%Z 1400%Z;
     StudySessionsRow.mk "s2" "B" on_break None 1350%Z 1450%Z]
    [] [ann; bob] [] [] [] 20%N 2000%Z.

(** The same, the backend being out of reach for the next round trip. *)
Definition down : Remote.t :=
  Remote.mk (Remote.friends courting) (Remote.friend_requests courting)
    (Remote.study_sessions courting) (Remote.group_messages courting)
    (Remote.users courting) [] [true] [] 20%N 2000%Z.

(** The same, the third round trip to come failing. *)
Definition failing_third : Remote.t :=
  Remote.mk (Remote.friends courting) (Remote.friend_requests courting)
    (Remote.study_sessions courting) (Remote.group_messages courting)
    (Remote.users courting) [] [false; false; true] [] 20%N 2000%Z.

(** The code units of [" Ann "] and of a name of blanks. *)
Definition padded_name : DonatorForm.JsString := [32; 65; 110; 110; 32]%N.
Definition blank_name : DonatorForm.JsString := [32; 9; 160; 12288]%N.

(** Ann and Bob are friends; each has other links, and so has Cy. *)
Definition circle : Remote.t :=
  Remote.mk
    [FriendsRow.mk "f1" "B" "A" 1500%Z; FriendsRow.mk "f3" "A" "C" 1510%Z;
     FriendsRow.mk "f2" "A" "B" 1500%Z; FriendsRow.mk "f4" "C" "A" 1510%Z;
     FriendsRow.mk "f5" "B" "C" 1520%Z; FriendsRow.mk "f6" "C" "D" 1530%Z]
    [] [] [] [ann; bob] [] [] [] 30%N 2000%Z.

(** A backend on which another part of the application listens. *)
Definition listening : Remote.t :=
  Remote.mk (Remote.friends courting) (Remote.friend_requests courting)
    (Remote.study_sessions courting) (Remote.group_messages courting)
    (Remote.users courting)
    [mkSubscription "donators" None users_table] [] [] 20%N 2000%Z.

(** * Properties *)

(** ** Running the monad *)

Lemma skipn_past {A} (j l : list A) : skipn (List.length j) (j ++ l) = l.
Proof. induction j as [|x j IH]; [reflexivity | exact IH]. Qed.

Lemma since_none (r : Remote.t) : since r r = [].
Proof. unfold since. apply skipn_all. Qed.

(** Unfolds the monadic layer of a goal. *)
Ltac tidy :=
  cbn beta iota zeta delta
    [fst snd ui net data error is_error Remote.friends
     Remote.friend_requests Remote.study_sessions Remote.group_messages
     Remote.users Remote.channels Remote.serial Remote.now Remote.outages
     Remote.journal Remote.travelled Remote.with_friends
     Remote.with_friend_requests Remote.with_study_sessions
     Remote.with_group_messages Remote.with_channels Remote.with_serial
     Mirror.friends Mirror.friendRequests Mirror.studySessions
     Mirror.groupMessages Mirror.isLoading] in *.

Ltac run :=
  unfold after, result, bind, ret, select, select_single, write,
    setFriends, setFriendRequests, setStudySessions, setGroupMessages,
    setIsLoading in *;
  tidy.

(** Case analysis on the next thing a run depends on: whether a round trip
    goes through, or how many rows a fetch returned. *)
Ltac step :=
  match goal with
  | |- context [Remote.unreachable ?r] =>
      let E := fresh "reach" in destruct (Remote.unreachable r) eqn:E
  | |- context [match ?l with [] => _ | _ :: _ => _ end] =>
      let E := fresh "rows" in destruct l eqn:E
  end; tidy.

Ltac unfold_loaders :=
  unfold TwoTrip.loadFriends, TwoTrip.loadFriendRequests,
    TwoTrip.loadStudySessions, TwoTrip.loadGroupMessages,
    FkJoin.loadFriends, FkJoin.loadFriendRequests,
    FkJoin.loadStudySessions, FkJoin.loadGroupMessages in *.

(** ** C3: a failed fetch leaves the mirror as it was *)

Ltac journal :=
  unfold since, some_failed, none_failed in *; tidy;
  rewrite <- ?app_assoc, ?skipn_past, ?skipn_all in *; cbn [app] in *;
  rewrite ?skipn_past in *;
  cbn [existsb forallb failed negb andb orb] in *.

(** C3. Whatever the loader, the revision and the state: when a fetch the
    loader issues comes back with an error (the first one, or the
    directory lookup of the second round trip), the loader ends with the
    React state as it found it, so its mirror keeps its previous value in
    full. *)
Theorem C3_failed_fetch_keeps_mirror :
  forall rv embed l user friends s,
    some_failed
      (since (net s) (net (after (load rv embed l user friends) s))) = true ->
    ui (after (load rv embed l user friends) s) = ui s.
Proof.
  intros rv embed l user friends s.
  destruct rv, l, user as [uid|]; cbn [load]; unfold_loaders; run;
    repeat step; journal; intros H;
    solve [ reflexivity | discriminate H ].
Qed.

(** ** C4: the window of the group chat *)

Lemma newest_first_insert_perm m l :
  Permutation (m :: l) (newest_first_insert m l).
Proof.
  induction l as [|x rest IH]; cbn.
  - apply Permutation_refl.
  - destruct (_ <=? _)%Z.
    + apply Permutation_refl.
    + eapply perm_trans; [apply perm_swap | apply perm_skip, IH].
Qed.

Lemma newest_first_perm l : Permutation l (newest_first l).
Proof.
  induction l as [|m l IH]; cbn.
  - apply perm_nil.
  - eapply perm_trans; [apply perm_skip, IH | apply newest_first_insert_perm].
Qed.

Lemma newest_first_insert_sorted m l :
  StronglySorted not_older l -> StronglySorted not_older (newest_first_insert m l).
Proof.
  induction 1 as [|x rest Hs IH Hx]; cbn.
  - repeat constructor.
  - destruct (_ <=? _)%Z eqn:E.
    + apply Z.leb_le in E. constructor.
      * constructor; assumption.
      * constructor; [exact E|].
        eapply Forall_impl; [|exact Hx].
        intros b Hb. unfold not_older in *. lia.
    + apply Z.leb_gt in E. constructor; [exact IH|].
      eapply Permutation_Forall; [apply newest_first_insert_perm|].
      constructor; [unfold not_older; lia | exact Hx].
Qed.

Lemma newest_first_sorted l : StronglySorted not_older (newest_first l).
Proof.
  induction l as [|m l IH]; cbn.
  - constructor.
  - apply newest_first_insert_sorted, IH.
Qed.

Section Sorted.
Context {A : Type} (R : A -> A -> Prop).

Lemma sorted_app_inv (l1 l2 : list A) :
  StronglySorted R (l1 ++ l2) ->
  StronglySorted R l1 /\ StronglySorted R l2
  /\ (forall a b, In a l1 -> In b l2 -> R a b).
Proof.
  induction l1 as [|x l1 IH]; cbn; intros H.
  - repeat split; [constructor | exact H | intros a b []].
  - inversion H as [|? ? Hs Hx]; subst.
    destruct (IH Hs) as (H1 & H2 & H3).
    rewrite Forall_app in Hx. destruct Hx as [Hx1 Hx2].
    repeat split; [constructor; assumption | exact H2 |].
    intros a b [->|Ha] Hb.
    + rewrite Forall_forall in Hx2. apply Hx2, Hb.
    + apply H3; assumption.
Qed.

Lemma sorted_snoc (Q : A -> A -> Prop) (l : list A) (x : A) :
  StronglySorted Q l -> Forall (fun a => Q a x) l ->
  StronglySorted Q (l ++ [x]).
Proof.
  induction 1 as [|y l Hs IH Hy]; cbn; intros H.
  - repeat constructor.
  - inversion H; subst. constructor; [apply IH; assumption|].
    rewrite Forall_app. split; [exact Hy | repeat constructor; assumption].
Qed.

Lemma sorted_rev (l : list A) :
  StronglySorted R l -> StronglySorted (fun a b => R b a) (rev l).
Proof.
  induction 1 as [|x l Hs IH Hx]; cbn.
  - constructor.
  - apply sorted_snoc; [exact IH|].
    rewrite Forall_forall in *. intros a Ha.
    apply Hx. apply in_rev. exact Ha.
Qed.

Lemma sorted_map {B} (f : B -> A) (l : list B) :
  StronglySorted (fun a b => R (f a) (f b)) l -> StronglySorted R (map f l).
Proof.
  induction 1 as [|x l Hs IH Hx]; cbn; constructor; [exact IH|].
  rewrite Forall_forall in *. intros a Ha.
  apply in_map_iff in Ha. destruct Ha as (b & <- & Hb). apply Hx, Hb.
Qed.

End Sorted.

(** What a successful run of the loader leaves in the mirror: the fetched
    rows, each with a user name joined in, in reverse. *)
Lemma loaded_messages rv embed uid friends s :
  let s' := after (load rv embed group_messages_loader (Some uid) friends) s in
  none_failed (since (net s) (net s')) = true ->
  exists join : GroupMessagesRow.t -> GroupMessage.t,
    (forall m, message_core (join m) = row_core m)
    /\ Mirror.groupMessages (ui s') =
       rev (map join (firstn 50 (newest_first (Remote.group_messages (net s))))).
Proof.
  destruct rv; cbn [load]; unfold_loaders; run.
  - repeat step; journal; intros H; try discriminate H.
    + exists (fun m => GroupMessage.mk (GroupMessagesRow.id m)
                (GroupMessagesRow.user_id m) "" (GroupMessagesRow.message m) []
                (GroupMessagesRow.created_at m)).
      split; reflexivity.
    + eexists. split; [|reflexivity]. reflexivity.
  - repeat step; journal; intros H; try discriminate H.
    rewrite map_map. eexists. split; [|reflexivity]. reflexivity.
Qed.

(** C4. In either revision, a run of the group-message loader in which no
    fetch fails sets the mirror to the rows fetched newest-first with a
    limit of 50, reversed: at most 50 messages, none older than a message
    left out, in ascending order of [created_at]. *)
Theorem C4_group_messages_window :
  forall rv embed uid friends s,
    let s' :=
      after (load rv embed group_messages_loader (Some uid) friends) s in
    let sorted := newest_first (Remote.group_messages (net s)) in
    let fetched := firstn 50 sorted in
    let left_out := skipn 50 sorted in
    let mirror := Mirror.groupMessages (ui s') in
    none_failed (since (net s) (net s')) = true ->
    map message_core mirror = rev (map row_core fetched)
    /\ (List.length mirror <= 50)%nat
    /\ Permutation (Remote.group_messages (net s)) (fetched ++ left_out)
    /\ (forall a b, In a fetched -> In b left_out -> not_older a b)
    /\ StronglySorted Z.le (map GroupMessage.created_at mirror).
Proof.
  intros rv embed uid friends s s' sorted fetched left_out mirror H.
  destruct (loaded_messages rv embed uid friends s H) as (join & Hjoin & Hm).
  fold s' in Hm. fold mirror in Hm. fold sorted in Hm. fold fetched in Hm.
  assert (Hsorted : StronglySorted not_older (fetched ++ left_out)).
  { unfold fetched, left_out. rewrite firstn_skipn.
    apply newest_first_sorted. }
  apply sorted_app_inv in Hsorted. destruct Hsorted as (Hf & _ & Hcross).
  repeat split.
  - rewrite Hm, map_rev, map_map. f_equal. apply map_ext, Hjoin.
  - rewrite Hm, length_rev, length_map. unfold fetched.
    rewrite length_firstn. apply Nat.le_min_l.
  - unfold fetched, left_out. rewrite firstn_skipn.
    apply newest_first_perm.
  - exact Hcross.
  - rewrite Hm, map_rev, map_map.
    apply (sorted_rev (fun a b => (b <= a)%Z)), sorted_map.
    eapply StronglySorted_ind with (l := fetched); [constructor | | exact Hf].
    intros a l Hl IH Ha. constructor; [exact IH|].
    eapply Forall_impl; [|exact Ha]. intros b Hb.
    unfold not_older in Hb.
    pose proof (Hjoin a) as Ea. pose proof (Hjoin b) as Eb.
    unfold message_core, row_core in Ea, Eb.
    injection Ea as _ _ _ ->. injection Eb as _ _ _ ->. exact Hb.
Qed.

(** ** What the loaders leave alone *)

Lemma pair_after {A} (m : M A) (s : Sys) : m s = (result m s, after m s).
Proof. unfold result, after. destruct (m s); reflexivity. Qed.

(** Names the state after each call that is not unfolded. *)
Ltac name_calls :=
  repeat match goal with
         | |- context [let (_, _) := ?m ?s in _] => rewrite (pair_after m s)
         end;
  cbn beta iota zeta.

Lemma load_reads_only rv embed l user friends :
  reads_only (load rv embed l user friends).
Proof.
  intros s db. subst db.
  destruct rv, l, user as [uid|]; cbn [load]; unfold_loaders; run;
    repeat step; repeat (split; [reflexivity|]);
    solve [ exists []; rewrite app_nil_r; split; reflexivity
          | eexists; split; [reflexivity|]; reflexivity
          | rewrite <- app_assoc; eexists; split; [reflexivity|]; reflexivity ].
Qed.

(** The request loader sets the request mirror only. *)
Lemma load_requests_ui rv embed user friends s :
  let m := ui (after (load rv embed friend_requests_loader user friends) s) in
  Mirror.friends m = Mirror.friends (ui s)
  /\ Mirror.studySessions m = Mirror.studySessions (ui s)
  /\ Mirror.groupMessages m = Mirror.groupMessages (ui s)
  /\ Mirror.isLoading m = Mirror.isLoading (ui s).
Proof.
  destruct rv, user as [uid|]; cbn [load]; unfold_loaders; run;
    repeat step; repeat split; reflexivity.
Qed.

(** ** C1: a request sent, then accepted *)

(** When [sendFriendRequest] reports success, the email resolved to one
    user, who is not the caller, and one pending request from the caller
    to that user was added; the friend links are as before. *)
Lemma send_succeeded user email s :
  result (Operations.sendFriendRequest user email) s = true ->
  exists uid target,
    user = Some uid
    /\ resolve email (net s) = [target]
    /\ target <> uid
    /\ let db := net (after (Operations.sendFriendRequest user email) s) in
       Remote.friends db = Remote.friends (net s)
       /\ Remote.friend_requests db =
          Remote.friend_requests (net s) ++
          [FriendRequestsRow.mk (mint (Remote.serial (net s))) uid target
             pending (Remote.now (net s))].
Proof.
  unfold Operations.sendFriendRequest, resolve.
  destruct user as [uid|]; run; [|discriminate].
  repeat step; try discriminate.
  destruct (String.eqb i uid) eqn:Eself; tidy; [discriminate|].
  repeat step; try discriminate; intros _;
    exists uid, i; apply String.eqb_neq in Eself;
    repeat split; assumption || reflexivity.
Qed.

(** When [acceptFriendRequest] reports success, the key identified one
    request; its two friend links were added and the status of the rows
    with that key was set to [accepted]. *)
Lemma accept_succeeded_with loadFriends loadFriendRequests user requestId s :
  (forall u, reads_only (loadFriends u)) ->
  (forall u, reads_only (loadFriendRequests u)) ->
  let accept :=
    Operations.acceptFriendRequest loadFriends loadFriendRequests
      user requestId in
  result accept s = true ->
  exists request,
    filter (fun x => String.eqb (FriendRequestsRow.id x) requestId)
           (Remote.friend_requests (net s)) = [request]
    /\ Remote.friends (net (after accept s)) =
       Remote.friends (net s) ++
       [FriendsRow.mk (mint (Remote.serial (net s)))
          (FriendRequestsRow.receiver_id request)
          (FriendRequestsRow.sender_id request) (Remote.now (net s));
        FriendsRow.mk (mint (Remote.serial (net s) + 1))
          (FriendRequestsRow.sender_id request)
          (FriendRequestsRow.receiver_id request) (Remote.now (net s))]
    /\ Remote.friend_requests (net (after accept s)) =
       Remote.friend_requests
         (Operations.set_status accepted requestId (net s)).
Proof.
  intros HF HR accept. subst accept.
  unfold Operations.acceptFriendRequest.
  destruct user as [uid|]; run; [|discriminate].
  repeat step; try discriminate.
  unfold Operations.insert_friendship, Operations.set_status. tidy.
  repeat step; try discriminate.
  name_calls. intros _. eexists. split; [reflexivity|].
  match goal with
  | |- context [after (loadFriendRequests ?u) (after (loadFriends ?v) ?s0)] =>
      destruct (HR u (after (loadFriends v) s0)) as (R1 & R2 & _);
      destruct (HF v s0) as (F1 & F2 & _)
  end.
  cbn [snd net]. rewrite R1, R2, F1, F2. tidy. split; reflexivity.
Qed.

Lemma reloads_read_only rv embed :
  (forall u, reads_only (load rv embed friends_loader u []))
  /\ (forall u, reads_only (load rv embed friend_requests_loader u [])).
Proof. split; intros u; apply load_reads_only. Qed.

Lemma accept_succeeded rv embed user requestId s :
  result (acceptFriendRequest rv embed user requestId) s = true ->
  exists request,
    filter (fun x => String.eqb (FriendRequestsRow.id x) requestId)
           (Remote.friend_requests (net s)) = [request]
    /\ Remote.friends
         (net (after (acceptFriendRequest rv embed user requestId) s)) =
       Remote.friends (net s) ++
       [FriendsRow.mk (mint (Remote.serial (net s)))
          (FriendRequestsRow.receiver_id request)
          (FriendRequestsRow.sender_id request) (Remote.now (net s));
        FriendsRow.mk (mint (Remote.serial (net s) + 1))
          (FriendRequestsRow.sender_id request)
          (FriendRequestsRow.receiver_id request) (Remote.now (net s))]
    /\ Remote.friend_requests
         (net (after (acceptFriendRequest rv embed user requestId) s)) =
       Remote.friend_requests
         (Operations.set_status accepted requestId (net s)).
Proof.
  destruct (reloads_read_only rv embed) as [HF HR].
  destruct rv; apply accept_succeeded_with; assumption.
Qed.

Lemma filter_set_status st requestId db :
  filter (fun x => String.eqb (FriendRequestsRow.id x) requestId)
    (Remote.friend_requests (Operations.set_status st requestId db)) =
  map (fun q => FriendRequestsRow.mk (FriendRequestsRow.id q)
                  (FriendRequestsRow.sender_id q)
                  (FriendRequestsRow.receiver_id q) st
                  (FriendRequestsRow.created_at q))
      (filter (fun x => String.eqb (FriendRequestsRow.id x) requestId)
              (Remote.friend_requests db)).
Proof.
  unfold Operations.set_status. tidy.
  induction (Remote.friend_requests db) as [|q l IH]; [reflexivity|].
  cbn [map filter].
  destruct (String.eqb (FriendRequestsRow.id q) requestId) eqn:E.
  - cbn [FriendRequestsRow.id]. rewrite E. cbn [map]. f_equal. exact IH.
  - rewrite E. exact IH.
Qed.

(** C1. The sender sends a request to the receiver's email, and the
    receiver accepts the request that was added; both calls report
    success. The sender and the receiver are distinct, and no friend link
    and no request exists between them beforehand. Then the friend links
    between the two are exactly two rows, receiver to sender and sender to
    receiver, and the request, the only row with its key, is [accepted]. *)
Theorem C1_send_then_accept :
  forall rv embed sender receiver email s theirs request,
    let send := Operations.sendFriendRequest (Some sender) email in
    let accept :=
      acceptFriendRequest rv embed (Some receiver)
        (FriendRequestsRow.id request) in
    let s1 := mkSys theirs (net (after send s)) in
    let db := net (after accept s1) in
    sender <> receiver ->
    resolve email (net s) = [receiver] ->
    links_between sender receiver (net s) = [] ->
    requests_between sender receiver (net s) = [] ->
    result send s = true ->
    Remote.friend_requests (net (after send s)) =
      Remote.friend_requests (net s) ++ [request] ->
    result accept s1 = true ->
    (exists a b,
        links_between sender receiver db = [a; b]
        /\ FriendsRow.user_id a = receiver /\ FriendsRow.friend_id a = sender
        /\ FriendsRow.user_id b = sender /\ FriendsRow.friend_id b = receiver)
    /\ filter (fun x => String.eqb (FriendRequestsRow.id x)
                          (FriendRequestsRow.id request))
              (Remote.friend_requests db) =
       [FriendRequestsRow.mk (FriendRequestsRow.id request) sender receiver
          accepted (FriendRequestsRow.created_at request)].
Proof.
  intros rv embed sender receiver email s theirs request send accept s1 db
    Hne Hres Hlinks _ Hsend Hnew Haccept.
  destruct (send_succeeded _ _ _ Hsend)
    as (uid & target & Hu & Ht & _ & Hf & Hq).
  injection Hu as <-. rewrite Hres in Ht. injection Ht as <-.
  fold send in Hf, Hq. rewrite Hq in Hnew.
  apply app_inj_tail in Hnew. destruct Hnew as [_ <-].
  destruct (accept_succeeded _ _ _ _ _ Haccept) as (q & Hone & Hfr & Hrq).
  fold accept in Hfr, Hrq. fold db in Hfr, Hrq.
  subst s1. cbn [net] in Hone, Hfr, Hrq.
  rewrite Hq in Hone. rewrite filter_app in Hone.
  cbn [filter FriendRequestsRow.id] in Hone.
  rewrite String.eqb_refl in Hone.
  destruct (filter _ (Remote.friend_requests (net s))) as [|x l] eqn:Hold.
  2:{ exfalso. cbn in Hone. injection Hone as _ Hone.
      symmetry in Hone. apply app_cons_not_nil in Hone. exact Hone. }
  cbn [app] in Hone. injection Hone as <-.
  split.
  - do 2 eexists. unfold links_between in *. rewrite Hfr, Hf, filter_app, Hlinks.
    unfold links.
    cbn [app filter FriendsRow.user_id FriendsRow.friend_id
         FriendRequestsRow.sender_id FriendRequestsRow.receiver_id].
    rewrite !String.eqb_refl. cbn [andb orb].
    rewrite Bool.orb_true_r. repeat split.
  - rewrite Hrq. cbn [FriendRequestsRow.id].
    rewrite filter_set_status, Hq, filter_app, Hold.
    cbn [app filter FriendRequestsRow.id].
    rewrite String.eqb_refl. reflexivity.
Qed.

(** ** C5: removing a friend *)

Lemma filter_none_left {A} (p : A -> bool) (l : list A) :
  filter p (filter (fun x => negb (p x)) l) = [].
Proof.
  induction l as [|x l IH]; [reflexivity|]. cbn [filter].
  destruct (p x) eqn:E; cbn [negb filter]; [exact IH|].
  rewrite E. exact IH.
Qed.

Lemma filter_nothing_to_drop {A} (p : A -> bool) (l : list A) :
  filter p l = [] -> filter (fun x => negb (p x)) l = l.
Proof.
  induction l as [|x l IH]; [reflexivity|]. cbn [filter].
  destruct (p x) eqn:E; cbn [negb]; [discriminate|].
  intros H. f_equal. apply IH, H.
Qed.

(** A call of [removeFriend] whose delete goes through reports success and
    leaves the friend links that are not between the two users. *)
Lemma remove_went_through_with loadFriends caller friendId s :
  (forall u, reads_only (loadFriends u)) ->
  let remove := Operations.removeFriend loadFriends (Some caller) friendId in
  Remote.unreachable (net s) = false ->
  result remove s = true
  /\ Remote.friends (net (after remove s)) =
     filter (fun f => negb (links caller friendId f)) (Remote.friends (net s)).
Proof.
  intros HF remove Hreach. subst remove.
  unfold Operations.removeFriend, Operations.delete_links. run.
  rewrite Hreach. tidy. name_calls. split; [reflexivity|].
  match goal with
  | |- context [after (loadFriends ?u) ?s0] =>
      destruct (HF u s0) as (F1 & _)
  end.
  cbn [snd]. rewrite F1. reflexivity.
Qed.

Lemma remove_went_through rv embed caller friendId s :
  let remove := removeFriend rv embed (Some caller) friendId in
  Remote.unreachable (net s) = false ->
  result remove s = true
  /\ Remote.friends (net (after remove s)) =
     filter (fun f => negb (links caller friendId f)) (Remote.friends (net s)).
Proof.
  destruct (reloads_read_only rv embed) as [HF _].
  destruct rv; apply remove_went_through_with; assumption.
Qed.

Lemma filter_keeps_all {A} (p : A -> bool) (l : list A) :
  (forall x, In x l -> p x = true) -> filter p l = l.
Proof.
  induction l as [|x l IH]; [reflexivity|]. intros H. cbn [filter].
  rewrite (H x (or_introl eq_refl)). f_equal.
  apply IH. intros y Hy. apply H. right. exact Hy.
Qed.

(** A link is between two users when its two ends are the two users, one
    way or the other. *)
Lemma between_test a b f :
  (String.eqb (FriendsRow.user_id f) a && String.eqb (FriendsRow.friend_id f) b
   || String.eqb (FriendsRow.user_id f) b
      && String.eqb (FriendsRow.friend_id f) a) = true
  <-> (FriendsRow.user_id f = a /\ FriendsRow.friend_id f = b)
      \/ (FriendsRow.user_id f = b /\ FriendsRow.friend_id f = a).
Proof.
  rewrite orb_true_iff, !andb_true_iff, !String.eqb_eq. reflexivity.
Qed.

(** C5. The delete of each call goes through. The first [removeFriend]
    reports success; afterwards the friends table has no row from the
    caller to the friend and no row from the friend to the caller, and
    every other row is still there, in its place: the table is the one
    before without the rows whose [user_id] and [friend_id] are the two
    users. When no row was between the two, nothing is deleted. A second
    call right after reports success again and deletes nothing. *)
Theorem C5_remove_friend :
  forall rv embed caller friendId s,
    let remove := removeFriend rv embed (Some caller) friendId in
    let s1 := after remove s in
    let s2 := after remove s1 in
    let between (f : FriendsRow.t) :=
      (FriendsRow.user_id f = caller /\ FriendsRow.friend_id f = friendId)
      \/ (FriendsRow.user_id f = friendId
          /\ FriendsRow.friend_id f = caller) in
    Remote.unreachable (net s) = false ->
    Remote.unreachable (net s1) = false ->
    result remove s = true
    /\ (forall f, In f (Remote.friends (net s1)) -> ~ between f)
    /\ (forall f, In f (Remote.friends (net s)) -> ~ between f ->
                  In f (Remote.friends (net s1)))
    /\ Remote.friends (net s1) =
       filter (fun f =>
                 negb (String.eqb (FriendsRow.user_id f) caller
                       && String.eqb (FriendsRow.friend_id f) friendId
                       || String.eqb (FriendsRow.user_id f) friendId
                          && String.eqb (FriendsRow.friend_id f) caller))
              (Remote.friends (net s))
    /\ ((forall f, In f (Remote.friends (net s)) -> ~ between f) ->
        Remote.friends (net s1) = Remote.friends (net s))
    /\ result remove s1 = true
    /\ Remote.friends (net s2) = Remote.friends (net s1).
Proof.
  intros rv embed caller friendId s remove s1 s2 between H1 H2.
  destruct (remove_went_through rv embed caller friendId s H1) as [R1 F1].
  destruct (remove_went_through rv embed caller friendId s1 H2) as [R2 F2].
  fold remove in R1, F1, R2, F2. fold s1 in F1. fold s2 in F2.
  unfold links in F1, F2.
  assert (Hgone : forall f, In f (Remote.friends (net s1)) -> ~ between f).
  { intros f Hf Hb. rewrite F1 in Hf. apply filter_In in Hf.
    destruct Hf as [_ Hf]. apply between_test in Hb.
    rewrite Hb in Hf. discriminate Hf. }
  assert (Hkeep : forall l,
             (forall f, In f l -> ~ between f) ->
             filter (fun f =>
                       negb (String.eqb (FriendsRow.user_id f) caller
                             && String.eqb (FriendsRow.friend_id f) friendId
                             || String.eqb (FriendsRow.user_id f) friendId
                                && String.eqb (FriendsRow.friend_id f) caller))
                    l = l).
  { intros l Hl. apply filter_keeps_all. intros f Hf.
    apply negb_true_iff, not_true_is_false. intros Hb.
    apply between_test in Hb. exact (Hl f Hf Hb). }
  split; [exact R1|]. split; [exact Hgone|]. split.
  { intros f Hf Hb. rewrite F1. apply filter_In. split; [exact Hf|].
    apply negb_true_iff, not_true_is_false. intros Ht.
    apply between_test in Ht. exact (Hb Ht). }
  split; [exact F1|]. split.
  { intros Hnone. rewrite F1. apply Hkeep, Hnone. }
  split; [exact R2|].
  rewrite F2. apply Hkeep, Hgone.
Qed.

(** ** C6: rejecting a request *)

Lemma reject_frame_with loadFriendRequests user requestId s :
  (forall u, reads_only (loadFriendRequests u)) ->
  (forall u s0,
      Mirror.friends (ui (after (loadFriendRequests u) s0)) =
      Mirror.friends (ui s0)) ->
  let reject :=
    Operations.rejectFriendRequest loadFriendRequests user requestId in
  let s' := after reject s in
  Remote.friends (net s') = Remote.friends (net s)
  /\ Mirror.friends (ui s') = Mirror.friends (ui s)
  /\ filter is_write (since (net s) (net s')) =
     match user with
     | Some _ =>
         [mkEvent UPDATE friend_requests_table (negb (result reject s))]
     | None => []
     end
  /\ Remote.friend_requests (net s') =
     (if result reject s
      then Remote.friend_requests
             (Operations.set_status rejected requestId (net s))
      else Remote.friend_requests (net s))
  /\ Remote.study_sessions (net s') = Remote.study_sessions (net s)
  /\ Remote.group_messages (net s') = Remote.group_messages (net s)
  /\ Remote.users (net s') = Remote.users (net s).
Proof.
  intros HR HU reject s'. subst reject s'.
  unfold Operations.rejectFriendRequest, Operations.set_status.
  destruct user as [uid|]; run.
  2:{ rewrite since_none. repeat split; reflexivity. }
  step.
  - journal. repeat split; reflexivity.
  - name_calls. cbn [fst snd].
    match goal with
    | |- context [after (loadFriendRequests ?u) ?s0] =>
        destruct (HR u s0) as (F1 & F2 & F3 & F4 & F5 & _ & fetches & J & W);
        pose proof (HU u s0) as U
    end.
    unfold after in *.
    rewrite F1, F2, F3, F4, F5, U. unfold since. rewrite J. tidy.
    rewrite <- app_assoc, skipn_past, filter_app, W.
    repeat split; reflexivity.
Qed.

(** C6. Whatever the state and whether it succeeds or not,
    [rejectFriendRequest] leaves the friend links as they were, in the
    [friends] table and in the mirror. With a user, its one write is the
    update of the request's status to [rejected] (the rest are fetches);
    the other tables are untouched. *)
Theorem C6_reject_creates_no_link :
  forall rv embed user requestId s,
    let reject := rejectFriendRequest rv embed user requestId in
    let s' := after reject s in
    Remote.friends (net s') = Remote.friends (net s)
    /\ Mirror.friends (ui s') = Mirror.friends (ui s)
    /\ filter is_write (since (net s) (net s')) =
       match user with
       | Some _ =>
           [mkEvent UPDATE friend_requests_table (negb (result reject s))]
       | None => []
       end
    /\ Remote.friend_requests (net s') =
       (if result reject s
        then Remote.friend_requests
               (Operations.set_status rejected requestId (net s))
        else Remote.friend_requests (net s))
    /\ Remote.study_sessions (net s') = Remote.study_sessions (net s)
    /\ Remote.group_messages (net s') = Remote.group_messages (net s)
    /\ Remote.users (net s') = Remote.users (net s).
Proof.
  intros rv embed user requestId s.
  destruct (reloads_read_only rv embed) as [_ HR].
  assert (HU : forall u s0,
             Mirror.friends
               (ui (after (load rv embed friend_requests_loader u []) s0)) =
             Mirror.friends (ui s0)).
  { intros u s0. apply (load_requests_ui rv embed u [] s0). }
  destruct rv; apply reject_frame_with; assumption.
Qed.

(** ** C7: the presence row *)

Lemma existsb_false_filter {A} (p : A -> bool) (l : list A) :
  existsb p l = false -> filter p l = [].
Proof.
  induction l as [|x l IH]; [reflexivity|]. cbn [existsb filter].
  destruct (p x); [discriminate | exact IH].
Qed.

Lemma existsb_true_filter {A} (p : A -> bool) (l : list A) :
  existsb p l = true -> filter p l <> [].
Proof.
  induction l as [|x l IH]; [discriminate|]. cbn [existsb filter].
  destruct (p x); [discriminate | exact IH].
Qed.

Lemma reachable_next n db e change :
  Remote.outages (change db) = Remote.outages db ->
  reachable_for (S n) db = true ->
  Remote.unreachable db = false
  /\ reachable_for n (Remote.travelled e (change db)) = true.
Proof.
  unfold reachable_for, Remote.unreachable. tidy. intros ->.
  destruct (Remote.outages db) as [|b l]; cbn [firstn forallb hd tl].
  - intros _. split; [reflexivity|]. destruct n; reflexivity.
  - intros H. apply andb_prop in H. destruct H as [Hb Hl].
    split; [destruct b; [discriminate | reflexivity] | exact Hl].
Qed.

(** One call that goes through, on a table with at most one row for the
    user: the user has one row afterwards, stamped with the clock reading
    of the call. *)
Lemma update_went_through uid clock st subject s :
  let s1 := after (Operations.updateStudyStatus (Some uid) clock st subject) s in
  (List.length (presence uid (net s)) <= 1)%nat ->
  Remote.unreachable (net s) = false ->
  map StudySessionsRow.last_active (presence uid (net s1)) = [clock].
Proof.
  unfold Operations.updateStudyStatus, Operations.upsert_session, presence.
  run. intros Hone Hreach. rewrite Hreach. tidy.
  destruct (existsb _ (Remote.study_sessions (net s))) eqn:E; tidy.
  - apply existsb_true_filter in E.
    induction (Remote.study_sessions (net s)) as [|x l IH];
      [contradiction|].
    cbn [map filter] in *.
    destruct (String.eqb (StudySessionsRow.user_id x) uid) eqn:Ex.
    + cbn [StudySessionsRow.user_id]. rewrite String.eqb_refl.
      cbn [map StudySessionsRow.last_active]. f_equal.
      cbn [List.length] in Hone.
      destruct (filter _ l) as [|y l'] eqn:El; [|cbn in Hone; lia].
      clear IH E Hone. induction l as [|z l IH]; [reflexivity|].
      cbn [map filter] in *.
      destruct (String.eqb (StudySessionsRow.user_id z) uid) eqn:Ez;
        [discriminate|].
      rewrite Ez. apply IH, El.
    + rewrite Ex. apply IH; assumption.
  - apply existsb_false_filter in E.
    rewrite filter_app, E. cbn [filter app StudySessionsRow.user_id].
    rewrite String.eqb_refl. reflexivity.
Qed.

Lemma update_outages uid clock st subject s :
  let s1 := after (Operations.updateStudyStatus (Some uid) clock st subject) s in
  forall n, reachable_for (S n) (net s) = true ->
            reachable_for n (net s1) = true.
Proof.
  unfold Operations.updateStudyStatus. run. intros n H.
  destruct (Remote.unreachable (net s)) eqn:E; tidy.
  - eapply (reachable_next n (net s) _ (fun d => d)); [reflexivity | exact H].
  - eapply (reachable_next n (net s)); [|exact H].
    unfold Operations.upsert_session.
    destruct (existsb _ _); reflexivity.
Qed.

Lemma updates_went_through uid calls :
  forall s,
    (List.length (presence uid (net s)) <= 1)%nat ->
    reachable_for (List.length calls) (net s) = true ->
    fst (updates uid calls s) = map (fun c => [at_time c]) calls
    /\ (calls <> [] ->
        map StudySessionsRow.last_active
            (presence uid (net (snd (updates uid calls s)))) =
        [last (map at_time calls) 0%Z]).
Proof.
  induction calls as [|c rest IH]; intros s Hone Hreach.
  - split; [reflexivity | intros H; contradiction].
  - cbn [updates List.length] in *.
    set (s1 := after (Operations.updateStudyStatus (Some uid) (at_time c)
                        (to_status c) (on_subject c)) s) in *.
    assert (Hr : Remote.unreachable (net s) = false).
    { eapply (reachable_next _ (net s) (mkEvent SELECT users_table false)
                (fun d => d)); [reflexivity | exact Hreach]. }
    pose proof (update_went_through uid (at_time c) (to_status c)
                  (on_subject c) s Hone Hr) as H1.
    fold s1 in H1.
    pose proof (update_outages uid (at_time c) (to_status c) (on_subject c)
                  s _ Hreach) as H2.
    fold s1 in H2.
    assert (Hone1 : (List.length (presence uid (net s1)) <= 1)%nat).
    { rewrite <- (length_map StudySessionsRow.last_active), H1.
      cbn. lia. }
    destruct (IH s1 Hone1 H2) as [IH1 IH2].
    destruct (updates uid rest s1) as [seen s2] eqn:Eu.
    cbn [fst snd] in *. split.
    + cbn [map]. rewrite H1, IH1. reflexivity.
    + intros _. destruct rest as [|c' rest'].
      * cbn in Eu. injection Eu as _ <-. exact H1.
      * rewrite IH2 by discriminate. reflexivity.
Qed.

Lemma concat_singletons {A B} (f : A -> B) (l : list A) :
  List.concat (map (fun c => [f c]) l) = map f l.
Proof. induction l as [|x l IH]; [reflexivity | cbn; f_equal; exact IH]. Qed.

(** C7, as the code has it. The upsert is keyed by the user: starting with
    at most one presence row for the user, after any calls of
    [updateStudyStatus] by that user, at least one, that all go through,
    the user has exactly one presence row. Its [last_active] is the clock
    reading of the last call, and after each call it was the reading of
    that call: the values increase strictly when the readings do. *)
Theorem C7_upsert_keeps_one_row :
  forall uid calls s,
    let seen := fst (updates uid calls s) in
    let db := net (snd (updates uid calls s)) in
    calls <> [] ->
    (List.length (presence uid (net s)) <= 1)%nat ->
    reachable_for (List.length calls) (net s) = true ->
    map StudySessionsRow.last_active (presence uid db) =
      [last (map at_time calls) 0%Z]
    /\ seen = map (fun c => [at_time c]) calls
    /\ (StronglySorted Z.lt (map at_time calls) ->
        StronglySorted Z.lt (List.concat seen)).
Proof.
  intros uid calls s seen db Hcalls Hone Hreach.
  destruct (updates_went_through uid calls s Hone Hreach) as [H1 H2].
  fold seen in H1. fold db in H2.
  repeat split.
  - apply H2, Hcalls.
  - exact H1.
  - rewrite H1, concat_singletons. exact (fun H => H).
Qed.

(** C7 as the specification has it fails: two calls that read the same
    clock value leave the same [last_active] twice. *)
Lemma C7_same_clock_reading_twice :
  let calls := [mkCall 1000%Z studying None; mkCall 1000%Z on_break None] in
  let run := updates "A" calls (mkSys Mirror.initial strangers) in
  ~ (List.length (presence "A" (net (snd run))) = 1%nat
     /\ StronglySorted Z.lt (List.concat (fst run))).
Proof.
  intros calls run [_ H].
  assert (E : List.concat (fst run) = [1000; 1000]%Z) by reflexivity.
  rewrite E in H.
  inversion H as [|? ? _ Hlt]; subst.
  inversion Hlt as [|? ? Habs _]; subst. revert Habs. apply Z.lt_irrefl.
Qed.

(** ** C8 and C9: the life cycle of the provider *)

Lemma reads_only_channels m s :
  reads_only m ->
  Remote.channels (net (after m s)) = Remote.channels (net s).
Proof. intros H. destruct (H s) as (_ & _ & _ & _ & _ & C & _). exact C. Qed.

(** The effect, with a user: the three subscriptions are installed, and
    no cleanup is handed to React. *)
Lemma effect_with_user loadFriends loadFriendRequests loadStudySessions
    loadGroupMessages uid s :
  (forall u, reads_only (loadFriends u)) ->
  (forall u, reads_only (loadFriendRequests u)) ->
  (forall u f, reads_only (loadStudySessions u f)) ->
  (forall u, reads_only (loadGroupMessages u)) ->
  let run :=
    Operations.effect loadFriends loadFriendRequests loadStudySessions
      loadGroupMessages (Some uid) s in
  fst run = None
  /\ Remote.channels (net (snd run)) = Remote.channels (net s) ++ installed.
Proof.
  intros HF HR HS HG run. subst run.
  unfold Operations.effect, Operations.loadFriendsData,
    Operations.setupRealtimeSubscriptions, Operations.subscribe.
  run. name_calls. split; [reflexivity|].
  cbn [snd net ui Remote.channels Remote.with_channels].
  rewrite (reads_only_channels _ _ (HG _)), (reads_only_channels _ _ (HS _ _)),
    (reads_only_channels _ _ (HR _)), (reads_only_channels _ _ (HF _)).
  cbn [net]. rewrite <- !app_assoc. reflexivity.
Qed.

(** The effect, without a user: the four mirrors are emptied together. *)
Lemma effect_without_user loadFriends loadFriendRequests loadStudySessions
    loadGroupMessages s :
  Operations.effect loadFriends loadFriendRequests loadStudySessions
    loadGroupMessages None s =
  (None, mkSys (Mirror.mk [] [] [] [] (Mirror.isLoading (ui s))) (net s)).
Proof. reflexivity. Qed.

Lemma loaders_read_only rv embed :
  (forall u, reads_only (load rv embed friends_loader u []))
  /\ (forall u, reads_only (load rv embed friend_requests_loader u []))
  /\ (forall u f, reads_only (load rv embed study_sessions_loader u f))
  /\ (forall u, reads_only (load rv embed group_messages_loader u [])).
Proof. split; [|split; [|split]]; intros; apply load_reads_only. Qed.

Lemma mount_with_user rv embed uid db :
  Operations.cleanup (mount rv embed (Some uid) db) = None
  /\ Remote.channels (net (Operations.sys (mount rv embed (Some uid) db))) =
     Remote.channels db ++ installed.
Proof.
  destruct (loaders_read_only rv embed) as (HF & HR & HS & HG).
  destruct rv; cbn [mount];
    unfold TwoTrip.mount, FkJoin.mount, Operations.mount;
    match goal with
    | |- context [Operations.effect ?a ?b ?c ?d ?u ?s] =>
        destruct (effect_with_user a b c d uid s HF HR HS HG) as [E1 E2];
        destruct (Operations.effect a b c d u s) as [c0 s0]
    end; cbn [fst snd] in *; subst; (split; [reflexivity | exact E2]).
Qed.

Lemma rerender_without_user rv embed p :
  rerender rv embed None p =
  Operations.mkMounted None
    (mkSys (Mirror.mk [] [] [] []
              (Mirror.isLoading (ui (Operations.run_cleanup p))))
       (net (Operations.run_cleanup p))).
Proof. destruct rv; reflexivity. Qed.

(** C8 fails on the code. A provider is mounted with a user. React is
    handed no cleanup, so when the session ends (the provider is rendered
    again without a user) or the provider is unmounted, the three
    subscriptions installed at the start are all still subscribed. *)
Theorem C8_subscriptions_outlive_the_session :
  forall rv embed uid db,
    let p := mount rv embed (Some uid) db in
    Operations.cleanup p = None
    /\ Remote.channels (net (Operations.sys (rerender rv embed None p))) =
       Remote.channels db ++ installed
    /\ Remote.channels (net (Operations.unmount p)) =
       Remote.channels db ++ installed.
Proof.
  intros rv embed uid db p.
  destruct (mount_with_user rv embed uid db) as [Hc Hs]. fold p in Hc, Hs.
  split; [exact Hc|].
  rewrite rerender_without_user.
  unfold Operations.unmount, Operations.run_cleanup. rewrite Hc.
  split; exact Hs.
Qed.

(** C9. The four mirrors start empty, and each time the effect runs
    without a user (on mount, or when the session ends, whatever the
    provider held) it leaves all four empty. *)
Theorem C9_mirrors_start_and_end_empty :
  (Mirror.friends Mirror.initial = []
   /\ Mirror.friendRequests Mirror.initial = []
   /\ Mirror.studySessions Mirror.initial = []
   /\ Mirror.groupMessages Mirror.initial = [])
  /\ (forall rv embed db,
         ui (Operations.sys (mount rv embed None db)) = Mirror.initial)
  /\ (forall rv embed p,
         let m := ui (Operations.sys (rerender rv embed None p)) in
         Mirror.friends m = []
         /\ Mirror.friendRequests m = []
         /\ Mirror.studySessions m = []
         /\ Mirror.groupMessages m = []).
Proof.
  split; [repeat split|]. split.
  - intros rv embed db. destruct rv; reflexivity.
  - intros rv embed p. rewrite rerender_without_user. repeat split.
Qed.

(** ** C10: the two revisions *)

Lemma among_In ids x : among ids x = true <-> In x ids.
Proof.
  unfold among. rewrite existsb_exists. split.
  - intros (y & Hy & E). apply String.eqb_eq in E. subst. exact Hy.
  - intros H. exists x. split; [exact H | apply String.eqb_refl].
Qed.

Lemma distinct_In ids x : In x (distinct ids) <-> In x ids.
Proof.
  induction ids as [|y ids IH]; [reflexivity|]. cbn [distinct In].
  rewrite filter_In, IH. split.
  - intros [H | [H _]]; [left | right]; assumption.
  - intros [H | H]; [left; exact H|].
    destruct (String.eqb x y) eqn:E.
    + left. apply String.eqb_eq in E. congruence.
    + right. split; [exact H | reflexivity].
Qed.

(** Looking a user up among the users fetched for a list of keys that has
    the key, or in the whole directory, finds the same row. *)
Lemma find_fetched users ids id :
  In id ids ->
  find_user (Some (filter (fun x => among ids (UsersRow.id x)) users)) id =
  find (fun u => String.eqb (UsersRow.id u) id) users.
Proof.
  intros Hin. cbn [find_user].
  induction users as [|u users IH]; [reflexivity|]. cbn [filter find].
  destruct (String.eqb (UsersRow.id u) id) eqn:E.
  - apply String.eqb_eq in E.
    assert (Ha : among ids (UsersRow.id u) = true)
      by (apply among_In; rewrite E; exact Hin).
    rewrite Ha. cbn [find]. rewrite <- E, String.eqb_refl. reflexivity.
  - destruct (among ids (UsersRow.id u)); [cbn [find]; rewrite E|]; exact IH.
Qed.

Lemma loaders_agree embed l user friends s :
  (forall id, embed (net s) id = directory_row (net s) id) ->
  second_trip_fails (net s) = false ->
  ui (after (load two_trip embed l user friends) s) =
  ui (after (load fk_join embed l user friends) s).
Proof.
  unfold second_trip_fails. intros Hembed H2.
  destruct l, user as [uid|]; cbn [load]; unfold_loaders; run;
    try reflexivity;
    (destruct (Remote.unreachable (net s)) eqn:H1; tidy; [reflexivity|]);
    match goal with
    | |- context [match ?rows with [] => _ | _ :: _ => _ end] =>
        remember rows as fetched eqn:Ef;
        destruct fetched as [|r0 rest]; [reflexivity|]
    end;
    tidy; unfold Remote.unreachable; tidy; rewrite H2; tidy;
    f_equal; try apply (f_equal (@List.rev _));
    rewrite map_map; apply map_ext_in; intros r Hr;
    rewrite find_fetched, Hembed;
    solve [ reflexivity
          | apply in_map; exact Hr
          | apply distinct_In, in_map; exact Hr ].
Qed.

Lemma reads_only_after m s s0 :
  reads_only m ->
  grows (net s) (net s0) ->
  tables (net (after m s0)) = tables (net s0)
  /\ grows (net s) (net (after m s0))
  /\ filter is_write (since (net s) (net (after m s0))) =
     filter is_write (since (net s) (net s0)).
Proof.
  intros Hm [evs Hg].
  destruct (Hm s0) as (F1 & F2 & F3 & F4 & F5 & _ & fetches & J & W).
  unfold tables, grows, since. rewrite F1, F2, F3, F4, F5, J, Hg.
  split; [reflexivity|]. split.
  - exists (evs ++ fetches). apply eq_sym, app_assoc.
  - rewrite <- app_assoc, !skipn_past, filter_app, W. apply app_nil_r.
Qed.

Ltac grown :=
  eexists;
  unfold Operations.set_status, Operations.insert_friendship,
    Operations.delete_links;
  tidy; rewrite <- ?app_assoc; reflexivity.

(** Behind both loaders of a revision, a reloading operation does the
    same as behind those of the other one. *)
Lemma accept_same lf lr lf' lr' user requestId s :
  (forall u, reads_only (lf u)) -> (forall u, reads_only (lr u)) ->
  (forall u, reads_only (lf' u)) -> (forall u, reads_only (lr' u)) ->
  same_outcome (Operations.acceptFriendRequest lf lr user requestId)
    (Operations.acceptFriendRequest lf' lr' user requestId) s.
Proof.
  intros HF HR HF' HR'. unfold same_outcome, Operations.acceptFriendRequest.
  destruct user as [uid|]; run; [|repeat split].
  repeat step; try (repeat split; reflexivity).
  name_calls. cbn [fst snd]. split; [reflexivity|].
  match goal with
  | |- context [after (lr ?u) (after (lf ?v) ?s0)] =>
      destruct (reads_only_after (lf v) s s0 (HF v)) as (T1 & G1 & W1);
        [grown|];
      destruct (reads_only_after (lr u) s _ (HR u) G1) as (T2 & _ & W2);
      destruct (reads_only_after (lf' v) s s0 (HF' v)) as (T1' & G1' & W1');
        [grown|];
      destruct (reads_only_after (lr' u) s _ (HR' u) G1') as (T2' & _ & W2')
  end.
  rewrite T2, T1, T2', T1', W2, W1, W2', W1'. split; reflexivity.
Qed.

Lemma reject_same lr lr' user requestId s :
  (forall u, reads_only (lr u)) -> (forall u, reads_only (lr' u)) ->
  same_outcome (Operations.rejectFriendRequest lr user requestId)
    (Operations.rejectFriendRequest lr' user requestId) s.
Proof.
  intros HR HR'. unfold same_outcome, Operations.rejectFriendRequest.
  destruct user as [uid|]; run; [|repeat split].
  repeat step; try (repeat split; reflexivity).
  name_calls. cbn [fst snd]. split; [reflexivity|].
  match goal with
  | |- context [after (lr ?u) ?s0] =>
      destruct (reads_only_after (lr u) s s0 (HR u)) as (T1 & _ & W1);
        [grown|];
      destruct (reads_only_after (lr' u) s s0 (HR' u)) as (T1' & _ & W1');
        [grown|]
  end.
  rewrite T1, T1', W1, W1'. split; reflexivity.
Qed.

Lemma remove_same lf lf' user friendId s :
  (forall u, reads_only (lf u)) -> (forall u, reads_only (lf' u)) ->
  same_outcome (Operations.removeFriend lf user friendId)
    (Operations.removeFriend lf' user friendId) s.
Proof.
  intros HF HF'. unfold same_outcome, Operations.removeFriend.
  destruct user as [uid|]; run; [|repeat split].
  repeat step; try (repeat split; reflexivity).
  name_calls. cbn [fst snd]. split; [reflexivity|].
  match goal with
  | |- context [after (lf ?u) ?s0] =>
      destruct (reads_only_after (lf u) s s0 (HF u)) as (T1 & _ & W1);
        [grown|];
      destruct (reads_only_after (lf' u) s s0 (HF' u)) as (T1' & _ & W1');
        [grown|]
  end.
  rewrite T1, T1', W1, W1'. split; reflexivity.
Qed.

(** C10. On a backend whose foreign-key embedding gives the directory's
    row for a key, and whose directory lookup (the second round trip, which
    one revision only makes) reports no error, each loader of the revision
    with the directory lookup leaves the React state the loader of the
    revision with the embedding leaves. Whatever the
    backend, the three operations that reload ([acceptFriendRequest],
    [rejectFriendRequest], [removeFriend]) return the same value, send the
    same writes and leave the same tables in both revisions; the other
    three ([sendFriendRequest], [updateStudyStatus], [sendGroupMessage])
    are one function for both. *)
Theorem C10_revisions_agree :
  forall embed user friends requestId friendId s,
    (forall id, embed (net s) id = directory_row (net s) id) ->
    second_trip_fails (net s) = false ->
    (forall l,
        ui (after (load two_trip embed l user friends) s) =
        ui (after (load fk_join embed l user friends) s))
    /\ same_outcome (acceptFriendRequest two_trip embed user requestId)
         (acceptFriendRequest fk_join embed user requestId) s
    /\ same_outcome (rejectFriendRequest two_trip embed user requestId)
         (rejectFriendRequest fk_join embed user requestId) s
    /\ same_outcome (removeFriend two_trip embed user friendId)
         (removeFriend fk_join embed user friendId) s.
Proof.
  intros embed user friends requestId friendId s Hembed Hreach.
  destruct (reloads_read_only two_trip embed) as [HF HR].
  destruct (reloads_read_only fk_join embed) as [HF' HR'].
  split; [intros l; apply loaders_agree; assumption|].
  split; [apply accept_same; assumption|].
  split; [apply reject_same | apply remove_same]; assumption.
Qed.

(** ** C2: requests that are refused, and one that is not *)

(** What [sendFriendRequest] does refuse, writing nothing: an email that
    does not resolve to one user, the caller's own email, and a user who
    has exactly one friend link with the caller when the two fetches go
    through. *)
Lemma send_refused uid email s :
  (forall target, resolve email (net s) <> [target])
  \/ resolve email (net s) = [uid]
  \/ (exists target f,
         resolve email (net s) = [target]
         /\ links_between uid target (net s) = [f]
         /\ reachable_for 2 (net s) = true) ->
  result (Operations.sendFriendRequest (Some uid) email) s = false
  /\ tables (net (after (Operations.sendFriendRequest (Some uid) email) s)) =
     tables (net s).
Proof.
  unfold Operations.sendFriendRequest, resolve, links_between, tables.
  run. intros H. step; [split; reflexivity|].
  destruct (map UsersRow.id _) as [|target [|other more]] eqn:Eres; tidy;
    try (split; reflexivity).
  destruct (String.eqb target uid) eqn:Eself; tidy; [split; reflexivity|].
  destruct H as [H | [H | (t & f & Ht & Hf & Hr)]].
  - exfalso. apply (H target). reflexivity.
  - injection H as ->. rewrite String.eqb_refl in Eself. discriminate.
  - injection Ht as <-. rewrite Hf.
    assert (H2 : hd false (tl (Remote.outages (net s))) = false).
    { unfold reachable_for, Remote.unreachable in *.
      destruct (Remote.outages (net s)) as [|a [|b l0]];
        cbn in *; try reflexivity.
      destruct a; [discriminate|]. destruct b; [discriminate | reflexivity]. }
    unfold Remote.unreachable. tidy. rewrite H2. tidy. split; reflexivity.
Qed.

(** What it does not refuse: a user who has two friend links or more with
    the caller, which is what an accepted request leaves. When the three
    round trips go through, the request is written. *)
Lemma send_to_a_friend uid target email s :
  resolve email (net s) = [target] ->
  target <> uid ->
  (2 <= List.length (links_between uid target (net s)))%nat ->
  reachable_for 3 (net s) = true ->
  result (Operations.sendFriendRequest (Some uid) email) s = true
  /\ Remote.friend_requests
       (net (after (Operations.sendFriendRequest (Some uid) email) s)) =
     Remote.friend_requests (net s) ++
     [FriendRequestsRow.mk (mint (Remote.serial (net s))) uid target pending
        (Remote.now (net s))].
Proof.
  unfold Operations.sendFriendRequest, resolve, links_between.
  run. intros Hres Hne Hlinks Hreach.
  assert (H : Remote.unreachable (net s) = false
              /\ hd false (tl (Remote.outages (net s))) = false
              /\ hd false (tl (tl (Remote.outages (net s)))) = false).
  { unfold reachable_for, Remote.unreachable in *.
    destruct (Remote.outages (net s)) as [|a [|b [|c l0]]];
      cbn in *; repeat split; try reflexivity;
      destruct a; try discriminate; try reflexivity;
      destruct b; try discriminate; try reflexivity;
      destruct c; try discriminate; reflexivity. }
  destruct H as (H1 & H2 & H3).
  rewrite H1, Hres. tidy.
  apply String.eqb_neq in Hne. rewrite Hne. tidy.
  unfold Remote.unreachable. tidy. rewrite H2.
  destruct (filter (links uid target) (Remote.friends (net s)))
    as [|f1 [|f2 more]]; cbn [List.length map] in *; try lia.
  tidy. rewrite H3. tidy. split; reflexivity.
Qed.

(** C2 fails on the code. Ann and Bob are friends, with the two link rows
    an accepted request leaves. Ann sends Bob a request: the check for an
    existing link asks for a single row, gets two, takes the error for
    "no link", and the request is written. *)
Theorem C2_request_to_a_friend_goes_through :
  let s := mkSys Mirror.initial befriended in
  let send := Operations.sendFriendRequest (Some "A") "bob@example.org" in
  resolve "bob@example.org" (net s) = ["B"]
  /\ List.length (links_between "A" "B" (net s)) = 2%nat
  /\ result send s = true
  /\ Remote.friend_requests (net (after send s)) =
     Remote.friend_requests befriended ++
     [FriendRequestsRow.mk "10" "A" "B" pending 2000%Z].
Proof. repeat split. Qed.

(** ** The theorems at work on the sample states *)

(** Ann sends Bob a request and Bob, whose controller has shown other
    things before, accepts it. *)
Lemma C1_ann_and_bob :
  let send := Operations.sendFriendRequest (Some "A") "bob@example.org" in
  let s1 := mkSys shown (net (after send (mkSys Mirror.initial strangers))) in
  let db := net (after (acceptFriendRequest two_trip directory_row
                          (Some "B") "1") s1) in
  (exists a b,
      links_between "A" "B" db = [a; b]
      /\ FriendsRow.user_id a = "B" /\ FriendsRow.friend_id a = "A"
      /\ FriendsRow.user_id b = "A" /\ FriendsRow.friend_id b = "B")
  /\ filter (fun x => String.eqb (FriendRequestsRow.id x) "1")
            (Remote.friend_requests db) =
     [FriendRequestsRow.mk "1" "A" "B" accepted 1000%Z].
Proof.
  apply (C1_send_then_accept two_trip directory_row "A" "B"
           "bob@example.org" (mkSys Mirror.initial strangers) shown
           (FriendRequestsRow.mk "1" "A" "B" pending 1000%Z));
    try reflexivity.
  intros H. discriminate H.
Defined.

(** The directory lookup of the friends loader fails: the mirror keeps
    what it showed. *)
Lemma C3_flaky_directory :
  ui (after (load two_trip directory_row friends_loader (Some "A") [])
        (mkSys shown flaky)) = shown.
Proof.
  apply (C3_failed_fetch_keeps_mirror two_trip directory_row friends_loader
           (Some "A") [] (mkSys shown flaky)).
  reflexivity.
Defined.

(** The three messages of the group, oldest first. *)
Lemma C4_three_messages :
  map message_core
    (Mirror.groupMessages
       (ui (after (load two_trip directory_row group_messages_loader
                     (Some "A") []) (mkSys shown befriended)))) =
  [("m1", "A", "hello", 1600%Z); ("m2", "B", "hi", 1700%Z);
   ("m3", "A", "anyone?", 1800%Z)].
Proof.
  apply (proj1 (C4_group_messages_window two_trip directory_row "A" []
                  (mkSys shown befriended) eq_refl)).
Defined.

(** Ann removes Bob, twice: the two rows between them go, the four
    others stay. *)
Lemma C5_ann_removes_bob :
  let remove := removeFriend two_trip directory_row (Some "A") "B" in
  let s1 := after remove (mkSys shown circle) in
  result remove (mkSys shown circle) = true
  /\ Remote.friends (net s1) =
     [FriendsRow.mk "f3" "A" "C" 1510%Z; FriendsRow.mk "f4" "C" "A" 1510%Z;
      FriendsRow.mk "f5" "B" "C" 1520%Z; FriendsRow.mk "f6" "C" "D" 1530%Z]
  /\ result remove s1 = true
  /\ Remote.friends (net (after remove s1)) = Remote.friends (net s1).
Proof.
  destruct (C5_remove_friend two_trip directory_row "A" "B"
              (mkSys shown circle) eq_refl eq_refl)
    as (H1 & _ & _ & H2 & _ & H3 & H4).
  exact (conj H1 (conj H2 (conj H3 H4))).
Defined.

(** Ann reports her status twice, a millisecond apart. *)
Lemma C7_two_updates :
  let calls := [mkCall 1000%Z studying (Some "maths");
                mkCall 1001%Z on_break None] in
  let run := updates "A" calls (mkSys Mirror.initial strangers) in
  map StudySessionsRow.last_active (presence "A" (net (snd run))) = [1001%Z]
  /\ fst run = [[1000%Z]; [1001%Z]].
Proof.
  destruct (C7_upsert_keeps_one_row "A"
              [mkCall 1000%Z studying (Some "maths");
               mkCall 1001%Z on_break None]
              (mkSys Mirror.initial strangers))
    as (H1 & H2 & _).
  - intros H. discriminate H.
  - cbn. lia.
  - reflexivity.
  - exact (conj H1 H2).
Defined.

(** The two revisions on the sample backend, with the directory as the
    embedding. *)
Lemma C10_on_the_sample :
  (forall l,
      ui (after (load two_trip directory_row l (Some "A") [])
            (mkSys shown befriended)) =
      ui (after (load fk_join directory_row l (Some "A") [])
            (mkSys shown befriended)))
  /\ same_outcome (acceptFriendRequest two_trip directory_row (Some "B") "r1")
       (acceptFriendRequest fk_join directory_row (Some "B") "r1")
       (mkSys shown befriended).
Proof.
  destruct (C10_revisions_agree directory_row (Some "A") [] "r1" "B"
              (mkSys shown befriended) (fun id => eq_refl) eq_refl)
    as (H1 & _).
  destruct (C10_revisions_agree directory_row (Some "B") [] "r1" "A"
              (mkSys shown befriended) (fun id => eq_refl) eq_refl)
    as (_ & H2 & _).
  exact (conj H1 H2).
Defined.

(** * More of the controller *)

(** ** What the loaders show *)

(** A run of a loader of [src/context/FriendsContext.tsx] in which no
    fetch fails: the first fetch went through and, when it returned rows,
    so did the directory lookup. *)
Ltac loaded H1 H2 :=
  run;
  (destruct (Remote.unreachable (net _)) eqn:H1; tidy;
   [journal; intros H; discriminate H|]);
  match goal with
  | |- context [match ?rows with [] => _ | _ :: _ => _ end] =>
      let fetched := fresh "fetched" in
      let Ef := fresh "Ef" in
      remember rows as fetched eqn:Ef;
      destruct fetched as [|r0 rest]; [intros _; reflexivity|]
  end;
  tidy;
  match goal with
  | |- context [Remote.unreachable ?r] =>
      destruct (Remote.unreachable r) eqn:H2; tidy;
      [journal; intros H; discriminate H|]
  end;
  intros _.

Lemma friends_loaded :
  forall uid s,
    let s' := after (TwoTrip.loadFriends (Some uid)) s in
    none_failed (since (net s) (net s')) = true ->
    ui s' =
    Mirror.mk (map (friend_entry (net s)) (own_links uid (net s)))
      (Mirror.friendRequests (ui s)) (Mirror.studySessions (ui s))
      (Mirror.groupMessages (ui s)) (Mirror.isLoading (ui s)).
Proof.
  intros uid s. unfold TwoTrip.loadFriends, own_links. cbn zeta.
  loaded H1 H2. f_equal. apply map_ext_in. intros f Hf.
  unfold friend_entry, directory_row.
  rewrite find_fetched by (apply in_map; exact Hf). reflexivity.
Qed.

(** X1. After a run of [loadFriends] in which no fetch fails, the friends
    mirror lists the caller's links, in the order of the table, each with
    the name and email the directory has for the friend, or ["Unknown"]
    and the empty string; the rest of the state is as before. *)
Theorem loadFriends_shows_own_links :
  forall uid s,
    let s' := after (TwoTrip.loadFriends (Some uid)) s in
    none_failed (since (net s) (net s')) = true ->
    ui s' =
    Mirror.mk (map (friend_entry (net s)) (own_links uid (net s)))
      (Mirror.friendRequests (ui s)) (Mirror.studySessions (ui s))
      (Mirror.groupMessages (ui s)) (Mirror.isLoading (ui s)).
Proof. exact friends_loaded. Qed.

Lemma requests_loaded :
  forall uid s,
    let s' := after (TwoTrip.loadFriendRequests (Some uid)) s in
    none_failed (since (net s) (net s')) = true ->
    ui s' =
    Mirror.mk (Mirror.friends (ui s))
      (map (request_entry (net s)) (pending_for uid (net s)))
      (Mirror.studySessions (ui s)) (Mirror.groupMessages (ui s))
      (Mirror.isLoading (ui s))
    /\ Forall (fun q => FriendRequest.receiver_id q = uid
                        /\ FriendRequest.status q = pending)
              (Mirror.friendRequests (ui s')).
Proof.
  intros uid s s' H.
  assert (E : ui s' =
              Mirror.mk (Mirror.friends (ui s))
                (map (request_entry (net s)) (pending_for uid (net s)))
                (Mirror.studySessions (ui s)) (Mirror.groupMessages (ui s))
                (Mirror.isLoading (ui s))).
  { revert H. subst s'. unfold TwoTrip.loadFriendRequests, pending_for.
    loaded H1 H2. f_equal. apply map_ext_in. intros q Hq.
    unfold request_entry, directory_row.
    rewrite find_fetched by (apply in_map; exact Hq). reflexivity. }
  split; [exact E|]. rewrite E. cbn [Mirror.friendRequests].
  rewrite Forall_map. unfold pending_for. rewrite Forall_forall.
  intros q Hq. apply filter_In in Hq. destruct Hq as [_ Hq].
  apply andb_prop in Hq. destruct Hq as [Hr Hp].
  apply String.eqb_eq in Hr. cbn. split; [exact Hr|].
  destruct (FriendRequestsRow.status q); [reflexivity | discriminate..].
Qed.

(** X2. After a run of [loadFriendRequests] in which no fetch fails, the
    request mirror lists the requests that are addressed to the caller and
    still pending, and only those, with the sender's name and email from
    the directory. *)
Theorem loadFriendRequests_shows_pending :
  forall uid s,
    let s' := after (TwoTrip.loadFriendRequests (Some uid)) s in
    none_failed (since (net s) (net s')) = true ->
    ui s' =
    Mirror.mk (Mirror.friends (ui s))
      (map (request_entry (net s)) (pending_for uid (net s)))
      (Mirror.studySessions (ui s)) (Mirror.groupMessages (ui s))
      (Mirror.isLoading (ui s))
    /\ Forall (fun q => FriendRequest.receiver_id q = uid
                        /\ FriendRequest.status q = pending)
              (Mirror.friendRequests (ui s')).
Proof. exact requests_loaded. Qed.

(** X3. After a run of [loadStudySessions] in which no fetch fails, the
    session mirror lists the presence rows of the caller and of the
    friends of the mirror the function closed over, with the users' names
    from the directory. *)
Theorem loadStudySessions_shows_self_and_friends :
  forall uid friends s,
    let s' := after (TwoTrip.loadStudySessions (Some uid) friends) s in
    none_failed (since (net s) (net s')) = true ->
    ui s' =
    Mirror.mk (Mirror.friends (ui s)) (Mirror.friendRequests (ui s))
      (map (session_entry (net s))
           (sessions_of (uid :: map Friend.friend_id friends) (net s)))
      (Mirror.groupMessages (ui s)) (Mirror.isLoading (ui s)).
Proof.
  intros uid friends s. unfold TwoTrip.loadStudySessions, sessions_of.
  cbn zeta. loaded H1 H2. f_equal. apply map_ext_in. intros x Hx.
  unfold session_entry, directory_row.
  rewrite find_fetched by (apply in_map; exact Hx). reflexivity.
Qed.

Lemma messages_loaded :
  forall uid s,
    let s' := after (TwoTrip.loadGroupMessages (Some uid)) s in
    none_failed (since (net s) (net s')) = true ->
    ui s' =
    Mirror.mk (Mirror.friends (ui s)) (Mirror.friendRequests (ui s))
      (Mirror.studySessions (ui s))
      (List.rev (map (message_entry (net s))
                   (firstn 50 (newest_first (Remote.group_messages (net s))))))
      (Mirror.isLoading (ui s)).
Proof.
  intros uid s. unfold TwoTrip.loadGroupMessages. cbn zeta.
  loaded H1 H2. f_equal. f_equal. apply map_ext_in. intros m Hm.
  unfold message_entry, directory_row.
  rewrite find_fetched by (apply distinct_In, in_map; exact Hm). reflexivity.
Qed.

(** X4. After a run of [loadGroupMessages] in which no fetch fails, the
    message mirror is the 50 newest messages, oldest first, each with the
    author's name from the directory or ["Unknown"], and with no mentions
    where the row has none. *)
Theorem loadGroupMessages_shows_names :
  forall uid s,
    let s' := after (TwoTrip.loadGroupMessages (Some uid)) s in
    none_failed (since (net s) (net s')) = true ->
    ui s' =
    Mirror.mk (Mirror.friends (ui s)) (Mirror.friendRequests (ui s))
      (Mirror.studySessions (ui s))
      (List.rev (map (message_entry (net s))
                   (firstn 50 (newest_first (Remote.group_messages (net s))))))
      (Mirror.isLoading (ui s)).
Proof. exact messages_loaded. Qed.

(** ** What the loaders leave alone, and the bulk load *)

Lemma load_frame :
  forall rv embed l user friends s,
    let s' := after (load rv embed l user friends) s in
    tables (net s') = tables (net s)
    /\ Remote.channels (net s') = Remote.channels (net s)
    /\ filter is_write (since (net s) (net s')) = []
    /\ Mirror.isLoading (ui s') = Mirror.isLoading (ui s)
    /\ match l with
       | friends_loader =>
           Mirror.friendRequests (ui s') = Mirror.friendRequests (ui s)
           /\ Mirror.studySessions (ui s') = Mirror.studySessions (ui s)
           /\ Mirror.groupMessages (ui s') = Mirror.groupMessages (ui s)
       | friend_requests_loader =>
           Mirror.friends (ui s') = Mirror.friends (ui s)
           /\ Mirror.studySessions (ui s') = Mirror.studySessions (ui s)
           /\ Mirror.groupMessages (ui s') = Mirror.groupMessages (ui s)
       | study_sessions_loader =>
           Mirror.friends (ui s') = Mirror.friends (ui s)
           /\ Mirror.friendRequests (ui s') = Mirror.friendRequests (ui s)
           /\ Mirror.groupMessages (ui s') = Mirror.groupMessages (ui s)
       | group_messages_loader =>
           Mirror.friends (ui s') = Mirror.friends (ui s)
           /\ Mirror.friendRequests (ui s') = Mirror.friendRequests (ui s)
           /\ Mirror.studySessions (ui s') = Mirror.studySessions (ui s)
       end.
Proof.
  intros rv embed l user friends s s'.
  destruct (reads_only_after (load rv embed l user friends) s s
              (load_reads_only rv embed l user friends))
    as (T & _ & W); [exists []; apply eq_sym, app_nil_r|].
  fold s' in T, W. rewrite since_none in W.
  split; [exact T|].
  split; [apply reads_only_channels, load_reads_only|].
  split; [exact W|].
  subst s'. clear T W.
  destruct rv, l, user as [uid|]; cbn [load]; unfold_loaders; run;
    repeat step; repeat split; reflexivity.
Qed.

(** X5. A loader of either revision, whatever comes back: it sends no write,
    the tables and the subscriptions are as before, and of the React
    state it can only have changed its own mirror. *)
Theorem loader_changes_its_mirror_only :
  forall rv embed l user friends s,
    let s' := after (load rv embed l user friends) s in
    tables (net s') = tables (net s)
    /\ Remote.channels (net s') = Remote.channels (net s)
    /\ filter is_write (since (net s) (net s')) = []
    /\ Mirror.isLoading (ui s') = Mirror.isLoading (ui s)
    /\ match l with
       | friends_loader =>
           Mirror.friendRequests (ui s') = Mirror.friendRequests (ui s)
           /\ Mirror.studySessions (ui s') = Mirror.studySessions (ui s)
           /\ Mirror.groupMessages (ui s') = Mirror.groupMessages (ui s)
       | friend_requests_loader =>
           Mirror.friends (ui s') = Mirror.friends (ui s)
           /\ Mirror.studySessions (ui s') = Mirror.studySessions (ui s)
           /\ Mirror.groupMessages (ui s') = Mirror.groupMessages (ui s)
       | study_sessions_loader =>
           Mirror.friends (ui s') = Mirror.friends (ui s)
           /\ Mirror.friendRequests (ui s') = Mirror.friendRequests (ui s)
           /\ Mirror.groupMessages (ui s') = Mirror.groupMessages (ui s)
       | group_messages_loader =>
           Mirror.friends (ui s') = Mirror.friends (ui s)
           /\ Mirror.friendRequests (ui s') = Mirror.friendRequests (ui s)
           /\ Mirror.studySessions (ui s') = Mirror.studySessions (ui s)
       end.
Proof. exact load_frame. Qed.

Lemma sessions_within rv embed uid friends s :
  let mine x :=
    among (uid :: map Friend.friend_id friends) (StudySession.user_id x)
    = true in
  Forall mine (Mirror.studySessions (ui s)) ->
  Forall mine
    (Mirror.studySessions
       (ui (after (load rv embed study_sessions_loader (Some uid) friends) s))).
Proof.
  intros mine H. subst mine.
  destruct rv; cbn [load]; unfold_loaders; run; repeat step;
    try exact H; try apply Forall_nil;
    rewrite ?map_map, Forall_map, Forall_forall;
    intros x Hx; cbn [StudySession.user_id];
    try (rewrite <- rows in Hx);
    match type of Hx with
    | In _ (filter _ _) => apply filter_In in Hx; apply Hx
    | _ => idtac
    end.
Qed.

(** X6. The bulk load, whatever the backend answers (every fetch may fail):
    it ends with [isLoading] false, has sent no write, and has left the
    tables and the subscriptions as they were. *)
Theorem loadFriendsData_only_reads :
  forall rv embed uid friends s,
    let s' := after (loadFriendsData rv embed (Some uid) friends) s in
    Mirror.isLoading (ui s') = false
    /\ tables (net s') = tables (net s)
    /\ Remote.channels (net s') = Remote.channels (net s)
    /\ filter is_write (since (net s) (net s')) = [].
Proof.
  intros rv embed uid friends s s'. subst s'.
  unfold loadFriendsData, Operations.loadFriendsData. run. name_calls.
  cbn [snd ui net Mirror.isLoading].
  split; [reflexivity|].
  match goal with
  | |- context [after (load rv embed group_messages_loader ?u4 ?f4)
                  (after (load rv embed study_sessions_loader ?u3 ?f3)
                     (after (load rv embed friend_requests_loader ?u2 ?f2)
                        (after (load rv embed friends_loader ?u1 ?f1) ?s0)))] =>
      destruct (reads_only_after _ s s0
                  (load_reads_only rv embed friends_loader u1 f1))
        as (T1 & G1 & W1); [exists []; apply eq_sym, app_nil_r|];
      destruct (reads_only_after _ s _
                  (load_reads_only rv embed friend_requests_loader u2 f2) G1)
        as (T2 & G2 & W2);
      destruct (reads_only_after _ s _
                  (load_reads_only rv embed study_sessions_loader u3 f3) G2)
        as (T3 & G3 & W3);
      destruct (reads_only_after _ s _
                  (load_reads_only rv embed group_messages_loader u4 f4) G3)
        as (T4 & G4 & W4);
      pose proof (reads_only_channels _ s0
                    (load_reads_only rv embed friends_loader u1 f1)) as C1;
      pose proof (reads_only_channels _ (after (load rv embed friends_loader u1 f1) s0)
                    (load_reads_only rv embed friend_requests_loader u2 f2)) as C2;
      pose proof (reads_only_channels _
                    (after (load rv embed friend_requests_loader u2 f2)
                       (after (load rv embed friends_loader u1 f1) s0))
                    (load_reads_only rv embed study_sessions_loader u3 f3)) as C3;
      pose proof (reads_only_channels _
                    (after (load rv embed study_sessions_loader u3 f3)
                       (after (load rv embed friend_requests_loader u2 f2)
                          (after (load rv embed friends_loader u1 f1) s0)))
                    (load_reads_only rv embed group_messages_loader u4 f4)) as C4
  end.
  rewrite T4, T3, T2, T1, C4, C3, C2, C1, W4, W3, W2, W1.
  cbn [net]. rewrite since_none. repeat split.
Qed.

Lemma mount_unfolded rv embed user db :
  mount rv embed user db =
  Operations.mount
    (fun u => load rv embed friends_loader u [])
    (fun u => load rv embed friend_requests_loader u [])
    (fun u f => load rv embed study_sessions_loader u f)
    (fun u => load rv embed group_messages_loader u []) user db.
Proof. destruct rv; reflexivity. Qed.

(** X7. The effect of the first render closes over the empty friends mirror,
    and so does its bulk load: after mounting with a user, whatever the
    user's friends and whatever the backend answers, every study session
    in the mirror is the user's own. *)
Theorem mount_shows_own_sessions_only :
  forall rv embed uid db,
    Forall (fun x => StudySession.user_id x = uid)
      (Mirror.studySessions
         (ui (Operations.sys (mount rv embed (Some uid) db)))).
Proof.
  intros rv embed uid db. rewrite mount_unfolded.
  unfold Operations.mount, Operations.effect, Operations.loadFriendsData,
    Operations.setupRealtimeSubscriptions, Operations.subscribe.
  run. name_calls.
  cbn [Operations.sys snd ui Mirror.studySessions].
  match goal with
  | |- context [after (load rv embed group_messages_loader ?u4 ?f4) ?s3] =>
      destruct (load_frame rv embed
                  group_messages_loader u4 f4 s3)
        as (_ & _ & _ & _ & _ & _ & E4)
  end.
  cbn zeta in E4. rewrite E4. clear E4.
  eapply Forall_impl;
    [|apply (sessions_within rv embed uid [])].
  - intros x Hx. cbn beta in Hx. apply among_In in Hx.
    destruct Hx as [Hx | []]. symmetry. exact Hx.
  - match goal with
    | |- context [after (load rv embed friend_requests_loader ?u2 ?f2)
                    (after (load rv embed friends_loader ?u1 ?f1) ?s0)] =>
        destruct (load_frame rv embed
                    friend_requests_loader u2 f2
                    (after (load rv embed friends_loader u1 f1) s0))
          as (_ & _ & _ & _ & _ & E2 & _);
        destruct (load_frame rv embed
                    friends_loader u1 f1 s0)
          as (_ & _ & _ & _ & _ & E1 & _)
    end.
    cbn zeta in E1, E2. rewrite E2, E1. apply Forall_nil.
Qed.

(** ** Without a user *)

(** X8. Every function of the controller starts with [if (!user) return]:
    without a user the operations report failure (or nothing), and
    neither they nor the loaders make a round trip or change anything. *)
Theorem without_user_nothing_happens :
  forall rv embed email requestId friendId clock st subject message mentions
         l friends s,
    Operations.sendFriendRequest None email s = (false, s)
    /\ acceptFriendRequest rv embed None requestId s = (false, s)
    /\ rejectFriendRequest rv embed None requestId s = (false, s)
    /\ removeFriend rv embed None friendId s = (false, s)
    /\ Operations.updateStudyStatus None clock st subject s = (tt, s)
    /\ Operations.sendGroupMessage None message mentions s = (tt, s)
    /\ load rv embed l None friends s = (tt, s)
    /\ loadFriendsData rv embed None friends s = (tt, s)
    /\ Operations.setupRealtimeSubscriptions None s = (None, s).
Proof.
  intros. destruct rv, l; repeat split.
Qed.

(** ** Accepting a request: what is not checked, what is not undone *)

(** X9. A key that identifies no request, or more than one: the call reports
    failure, and has written nothing and reloaded nothing. *)
Theorem accept_unknown_request :
  forall rv embed user requestId s,
    let accept := acceptFriendRequest rv embed user requestId in
    (forall q, requests_with requestId (net s) <> [q]) ->
    result accept s = false
    /\ tables (net (after accept s)) = tables (net s)
    /\ filter is_write (since (net s) (net (after accept s))) = []
    /\ ui (after accept s) = ui s.
Proof.
  intros rv embed user requestId s accept H. subst accept.
  unfold requests_with in H.
  destruct rv; cbn [acceptFriendRequest];
    unfold TwoTrip.acceptFriendRequest, FkJoin.acceptFriendRequest,
      Operations.acceptFriendRequest;
    (destruct user as [uid|]; run;
     [|rewrite since_none; repeat split]);
    (step; [journal; repeat split|]);
    (destruct (filter _ (Remote.friend_requests (net s)))
       as [|q [|q' more]] eqn:E; tidy;
     [journal; repeat split
     |exfalso; apply (H q); reflexivity
     |journal; repeat split]).
Qed.

(** X10. The insert of the two links goes through and the update of the status
    does not: the call reports failure, the two links stay in the table,
    the request keeps its status, and the mirrors are not reloaded. *)
Theorem accept_is_not_undone :
  forall rv embed uid requestId s request later,
    let accept := acceptFriendRequest rv embed (Some uid) requestId in
    requests_with requestId (net s) = [request] ->
    Remote.outages (net s) = false :: false :: true :: later ->
    result accept s = false
    /\ Remote.friends (net (after accept s)) =
       Remote.friends (net s) ++
       [FriendsRow.mk (mint (Remote.serial (net s)))
          (FriendRequestsRow.receiver_id request)
          (FriendRequestsRow.sender_id request) (Remote.now (net s));
        FriendsRow.mk (mint (Remote.serial (net s) + 1))
          (FriendRequestsRow.sender_id request)
          (FriendRequestsRow.receiver_id request) (Remote.now (net s))]
    /\ Remote.friend_requests (net (after accept s)) =
       Remote.friend_requests (net s)
    /\ ui (after accept s) = ui s.
Proof.
  intros rv embed uid requestId s request later accept Hone Hout.
  subst accept. unfold requests_with in Hone.
  destruct rv; cbn [acceptFriendRequest];
    unfold TwoTrip.acceptFriendRequest, FkJoin.acceptFriendRequest,
      Operations.acceptFriendRequest, Operations.insert_friendship;
    run;
    repeat progress
      (unfold Remote.unreachable; tidy; rewrite ?Hout, ?Hone; cbn [hd tl]);
    repeat split.
Qed.

(** X11. Nothing in [acceptFriendRequest] looks at who calls or at the status
    of the request. Accepting a request a second time, by whoever and
    from whatever controller, succeeds like the first time: the friends
    table then has the pair of links twice. *)
Theorem accept_again_doubles_the_links :
  forall rv embed user user' requestId s theirs,
    let accept := acceptFriendRequest rv embed user requestId in
    let again := acceptFriendRequest rv embed user' requestId in
    let s1 := mkSys theirs (net (after accept s)) in
    let ends f := (FriendsRow.user_id f, FriendsRow.friend_id f) in
    result accept s = true ->
    result again s1 = true ->
    exists request,
      requests_with requestId (net s) = [request]
      /\ map ends (Remote.friends (net (after again s1))) =
         map ends (Remote.friends (net s)) ++
         [(FriendRequestsRow.receiver_id request,
           FriendRequestsRow.sender_id request);
          (FriendRequestsRow.sender_id request,
           FriendRequestsRow.receiver_id request);
          (FriendRequestsRow.receiver_id request,
           FriendRequestsRow.sender_id request);
          (FriendRequestsRow.sender_id request,
           FriendRequestsRow.receiver_id request)].
Proof.
  intros rv embed user user' requestId s theirs accept again s1 ends H1 H2.
  destruct (accept_succeeded _ _ _ _ _ H1) as (q & Hq & Hf & Hr).
  destruct (accept_succeeded _ _ _ _ _ H2) as (q' & Hq' & Hf' & _).
  fold accept in Hf, Hr. fold again in Hf'.
  subst s1. cbn [net] in Hq', Hf'.
  rewrite Hr, filter_set_status, Hq in Hq'. cbn [map] in Hq'.
  injection Hq' as <-.
  exists q. split; [exact Hq|].
  rewrite Hf', Hf, !map_app, <- app_assoc. reflexivity.
Qed.

(** ** Sending a request *)

Lemma send_frame :
  forall user email s,
    let send := Operations.sendFriendRequest user email in
    let db := net (after send s) in
    ui (after send s) = ui s
    /\ Remote.friends db = Remote.friends (net s)
    /\ Remote.study_sessions db = Remote.study_sessions (net s)
    /\ Remote.group_messages db = Remote.group_messages (net s)
    /\ Remote.users db = Remote.users (net s)
    /\ (if result send s
        then exists q,
            Remote.friend_requests db = Remote.friend_requests (net s) ++ [q]
            /\ Some (FriendRequestsRow.sender_id q) = user
            /\ FriendRequestsRow.status q = pending
        else Remote.friend_requests db = Remote.friend_requests (net s)).
Proof.
  intros user email s send db. subst send db.
  unfold Operations.sendFriendRequest, Operations.insert_request.
  destruct user as [uid|]; run; [|repeat split].
  repeat step; try (repeat split; reflexivity);
    (destruct (String.eqb _ uid); tidy; [repeat split; reflexivity|]);
    repeat step; repeat split;
    eexists; repeat split.
Qed.

(** X12. Whatever happens, [sendFriendRequest] reloads nothing and changes no
    table but [friend_requests], which either stays as it is (when the
    call reports failure) or gets one more row: a pending request from
    the caller. *)
Theorem send_adds_at_most_one_request :
  forall user email s,
    let send := Operations.sendFriendRequest user email in
    let db := net (after send s) in
    ui (after send s) = ui s
    /\ Remote.friends db = Remote.friends (net s)
    /\ Remote.study_sessions db = Remote.study_sessions (net s)
    /\ Remote.group_messages db = Remote.group_messages (net s)
    /\ Remote.users db = Remote.users (net s)
    /\ (if result send s
        then exists q,
            Remote.friend_requests db = Remote.friend_requests (net s) ++ [q]
            /\ Some (FriendRequestsRow.sender_id q) = user
            /\ FriendRequestsRow.status q = pending
        else Remote.friend_requests db = Remote.friend_requests (net s)).
Proof. exact send_frame. Qed.

(** X13. Nothing in [sendFriendRequest] looks for an earlier request: when a
    second call for the same email succeeds like the first, the table has
    two pending requests from the caller to the same user. *)
Theorem send_twice_leaves_two_requests :
  forall uid email s,
    let send := Operations.sendFriendRequest (Some uid) email in
    let s1 := after send s in
    result send s = true ->
    result send s1 = true ->
    exists target id1 id2 at1 at2,
      target <> uid
      /\ Remote.friend_requests (net (after send s1)) =
         Remote.friend_requests (net s) ++
         [FriendRequestsRow.mk id1 uid target pending at1;
          FriendRequestsRow.mk id2 uid target pending at2].
Proof.
  intros uid email s send s1 H1 H2.
  destruct (send_succeeded _ _ _ H1) as (u & t & Hu & Ht & Hne & _ & Hq).
  destruct (send_succeeded _ _ _ H2) as (u' & t' & Hu' & Ht' & _ & _ & Hq').
  injection Hu as <-. injection Hu' as <-.
  fold send in Hq, Hq'. fold s1 in Hq, Hq'.
  destruct (send_frame (Some uid) email s)
    as (_ & _ & _ & _ & Husers & _).
  fold send in Husers. fold s1 in Husers.
  unfold resolve in Ht, Ht'. rewrite Husers, Ht in Ht'. injection Ht' as <-.
  exists t. do 4 eexists. split; [exact Hne|].
  rewrite Hq', Hq, <- app_assoc. reflexivity.
Qed.

(** ** Reporting a status *)

Lemma filter_map_same {A} (p : A -> bool) (f : A -> A) (l : list A) :
  (forall x, p (f x) = p x) ->
  filter p (map f l) = map f (filter p l).
Proof.
  intros H. induction l as [|x l IH]; [reflexivity|]. cbn [map filter].
  rewrite H. destruct (p x); [cbn [map]; f_equal|]; exact IH.
Qed.

Lemma map_off_filter {A} (p : A -> bool) (g : A -> A) (l : list A) :
  map (fun x => if p x then g x else x) (filter (fun x => negb (p x)) l) =
  filter (fun x => negb (p x)) l.
Proof.
  rewrite <- (map_id (filter _ l)) at 2.
  apply map_ext_in. intros x Hx. apply filter_In in Hx.
  destruct Hx as [_ Hx]. destruct (p x); [discriminate | reflexivity].
Qed.

(** X14. Whatever happens, [updateStudyStatus] reloads nothing, and changes
    neither another table nor the presence row of another user. *)
Theorem update_touches_own_presence_only :
  forall uid clock st subject s,
    let update := Operations.updateStudyStatus (Some uid) clock st subject in
    let db := net (after update s) in
    ui (after update s) = ui s
    /\ Remote.friends db = Remote.friends (net s)
    /\ Remote.friend_requests db = Remote.friend_requests (net s)
    /\ Remote.group_messages db = Remote.group_messages (net s)
    /\ Remote.users db = Remote.users (net s)
    /\ presence_of_others uid db = presence_of_others uid (net s).
Proof.
  intros uid clock st subject s update db. subst update db.
  unfold Operations.updateStudyStatus, Operations.upsert_session,
    presence_of_others.
  run. step; [repeat split|].
  destruct (existsb _ _); tidy; repeat split.
  - rewrite filter_map_same.
    + apply (map_off_filter
               (fun x => String.eqb (StudySessionsRow.user_id x) uid)).
    + intros x. destruct (String.eqb (StudySessionsRow.user_id x) uid) eqn:E;
        cbn [StudySessionsRow.user_id]; [|rewrite E; reflexivity].
      rewrite String.eqb_refl. reflexivity.
  - rewrite filter_app. cbn [filter StudySessionsRow.user_id].
    rewrite String.eqb_refl. cbn [negb]. apply app_nil_r.
Qed.

(** ** Writing to the group *)

Lemma reachable_two db :
  reachable_for 2 db = true ->
  Remote.unreachable db = false /\ hd false (tl (Remote.outages db)) = false.
Proof.
  unfold reachable_for, Remote.unreachable.
  destruct (Remote.outages db) as [|[|] [|[|] l0]]; cbn;
    try discriminate; intros _; split; reflexivity.
Qed.

(** With the next two round trips going through, no fetch of a loader
    fails. *)
Lemma load_goes_through rv embed l user friends s :
  reachable_for 2 (net s) = true ->
  none_failed
    (since (net s) (net (after (load rv embed l user friends) s))) = true.
Proof.
  intros H. apply reachable_two in H. destruct H as [H1 H2].
  destruct rv, l, user as [uid|]; cbn [load]; unfold_loaders; run;
    rewrite ?since_none; try reflexivity;
    rewrite H1; tidy;
    repeat match goal with
      | |- context [match ?rows with [] => _ | _ :: _ => _ end] =>
          destruct rows; tidy
      end;
    unfold Remote.unreachable; tidy; rewrite ?H2; tidy;
    journal; reflexivity.
Qed.

Lemma newest_first_newest old m :
  Forall (fun x => (GroupMessagesRow.created_at x
                    < GroupMessagesRow.created_at m)%Z) old ->
  newest_first (old ++ [m]) = m :: newest_first old.
Proof.
  unfold newest_first. rewrite fold_right_app. cbn [fold_right].
  induction 1 as [|x old Hx _ IH]; [reflexivity|].
  cbn [fold_right]. rewrite IH. cbn [newest_first_insert].
  destruct (Z.leb_spec (GroupMessagesRow.created_at m)
              (GroupMessagesRow.created_at x)); [lia | reflexivity].
Qed.

(** Whatever happens, [sendGroupMessage] reloads nothing: the mirror is
    left to the notification. When the insert goes through, the table
    has one more row, by the caller, with the message and the mentions
    (none when none are given), stamped by the server. *)
Lemma sendGroupMessage_appends :
  forall uid message mentions s,
    let send := Operations.sendGroupMessage (Some uid) message mentions in
    ui (after send s) = ui s
    /\ Remote.group_messages (net (after send s)) =
       (if Remote.unreachable (net s)
        then Remote.group_messages (net s)
        else Remote.group_messages (net s) ++
             [GroupMessagesRow.mk (mint (Remote.serial (net s))) uid message
                (Some (match mentions with Some l => l | None => [] end))
                (Remote.now (net s))]).
Proof.
  intros uid message mentions s send. subst send.
  unfold Operations.sendGroupMessage, Operations.insert_message. run.
  destruct (Remote.unreachable (net s)); tidy; split; reflexivity.
Qed.

(** X16. A message sent, then the messages loaded, the three round trips going
    through and the stored messages being older than the server's clock:
    the message just sent is the last of the mirror, under the name the
    directory has for the caller. *)
Theorem sent_message_is_shown_last :
  forall uid message mentions s,
    let s1 :=
      after (Operations.sendGroupMessage (Some uid) message mentions) s in
    let s2 := after (TwoTrip.loadGroupMessages (Some uid)) s1 in
    Forall (fun m => (GroupMessagesRow.created_at m < Remote.now (net s))%Z)
           (Remote.group_messages (net s)) ->
    reachable_for 3 (net s) = true ->
    exists earlier,
      Mirror.groupMessages (ui s2) =
      earlier ++
      [GroupMessage.mk (mint (Remote.serial (net s))) uid
         (or_else (option_map UsersRow.name (directory_row (net s) uid))
            "Unknown")
         message (match mentions with Some l => l | None => [] end)
         (Remote.now (net s))].
Proof.
  intros uid message mentions s s1 s2 Hold Hreach.
  assert (H1 : Remote.unreachable (net s) = false
               /\ reachable_for 2 (net s1) = true).
  { subst s1. unfold Operations.sendGroupMessage. run.
    destruct (Remote.unreachable (net s)) eqn:E; tidy.
    - exfalso. revert Hreach E. unfold reachable_for, Remote.unreachable.
      destruct (Remote.outages (net s)) as [|[|] l0]; cbn; discriminate.
    - split; [reflexivity|].
      eapply (reachable_next 2 (net s)); [|exact Hreach].
      reflexivity. }
  destruct H1 as [H1 H2].
  pose proof (messages_loaded uid s1
                (load_goes_through two_trip directory_row
                   group_messages_loader (Some uid) [] s1 H2)) as E.
  fold s2 in E. rewrite E. cbn [Mirror.groupMessages].
  clear E H2. subst s1.
  unfold Operations.sendGroupMessage, Operations.insert_message in *.
  run. rewrite H1. tidy.
  rewrite newest_first_newest by exact Hold.
  cbn [firstn map List.rev]. eexists. f_equal.
Qed.

(** ** Subscribing and unsubscribing *)

Lemma same_subscription_eq a b :
  Operations.same_subscription a b = true -> a = b.
Proof.
  destruct a as [ta ea wa], b as [tb eb wb]. unfold Operations.same_subscription.
  cbn [topic event watched]. intros H.
  apply andb_prop in H. destruct H as [H Hw].
  apply andb_prop in H. destruct H as [Ht He].
  apply String.eqb_eq in Ht. subst tb.
  destruct ea as [[]|], eb as [[]|]; try discriminate He;
    destruct wa, wb; try discriminate Hw; reflexivity.
Qed.

Lemma same_subscription_refl a : Operations.same_subscription a a = true.
Proof.
  destruct a as [ta [[]|] []]; unfold Operations.same_subscription;
    cbn [topic event watched]; rewrite String.eqb_refl; reflexivity.
Qed.

Lemma without_fresh sub l rest :
  Forall (fun c => Operations.same_subscription c sub = false) l ->
  Operations.without sub (l ++ sub :: rest) = l ++ rest.
Proof.
  induction 1 as [|c l Hc _ IH]; cbn [app Operations.without].
  - rewrite same_subscription_refl. reflexivity.
  - rewrite Hc. f_equal. exact IH.
Qed.

(** X17. On a backend where none of the three topics is joined yet, the
    function [setupRealtimeSubscriptions] returns undoes what it did:
    called right after, it leaves exactly the subscriptions there were
    before, and neither of the two touches the tables or the React
    state. *)
Theorem cleanup_undoes_setup :
  forall uid s,
    let setup := Operations.setupRealtimeSubscriptions (Some uid) in
    forallb (fun c => negb (among (map topic installed) (topic c)))
            (Remote.channels (net s)) = true ->
    exists cleanup,
      result setup s = Some cleanup
      /\ Remote.channels (net (after setup s)) =
         Remote.channels (net s) ++ installed
      /\ Remote.channels (net (after cleanup (after setup s))) =
         Remote.channels (net s)
      /\ tables (net (after cleanup (after setup s))) = tables (net s)
      /\ ui (after cleanup (after setup s)) = ui s.
Proof.
  intros uid s setup Hfree. subst setup.
  assert (Hnew : forall sub,
             In sub installed ->
             Forall (fun c => Operations.same_subscription c sub = false)
                    (Remote.channels (net s))).
  { intros sub Hsub. rewrite forallb_forall in Hfree.
    apply Forall_forall. intros c Hc.
    specialize (Hfree c Hc). apply negb_true_iff in Hfree.
    destruct (Operations.same_subscription c sub) eqn:E; [|reflexivity].
    apply same_subscription_eq in E. subst c.
    rewrite <- Hfree. symmetry. apply among_In, in_map, Hsub. }
  unfold Operations.setupRealtimeSubscriptions, Operations.subscribe,
    Operations.unsubscribe.
  run. eexists. split; [reflexivity|].
  split; [rewrite <- !app_assoc; reflexivity|].
  split; [|split; reflexivity].
  run. rewrite <- !app_assoc. cbn [app].
  rewrite without_fresh by (apply Hnew; left; reflexivity).
  rewrite without_fresh by (apply Hnew; right; left; reflexivity).
  rewrite <- (app_nil_r (Remote.channels (net s))) at 2.
  apply without_fresh. apply Hnew. right. right. left. reflexivity.
Qed.

(** ** Reading one's writes *)

Lemma forallb_firstn_less {A} (p : A -> bool) n (l : list A) :
  forallb p (firstn (S n) l) = true -> forallb p (firstn n l) = true.
Proof.
  revert l. induction n as [|n IH]; intros l; [reflexivity|].
  destruct l as [|x l]; [reflexivity|].
  change (firstn (S (S n)) (x :: l)) with (x :: firstn (S n) l).
  change (firstn (S n) (x :: l)) with (x :: firstn n l).
  cbn [forallb]. intros H. apply andb_prop in H. destruct H as [-> H].
  apply IH, H.
Qed.

Lemma forallb_firstn_tl {A} (p : A -> bool) n (l : list A) :
  forallb p (firstn (S n) l) = true -> forallb p (firstn n (tl l)) = true.
Proof.
  destruct l as [|x l]; [destruct n; reflexivity|].
  cbn [firstn forallb tl]. intros H. apply andb_prop in H. apply H.
Qed.

(** A loader makes two round trips at most. *)
Lemma load_takes_two rv embed l user friends s n :
  reachable_for (S (S n)) (net s) = true ->
  reachable_for n (net (after (load rv embed l user friends) s)) = true.
Proof.
  unfold reachable_for. intros H.
  pose proof (forallb_firstn_less _ _ _ (forallb_firstn_less _ _ _ H)) as H0.
  pose proof (forallb_firstn_less _ _ _ (forallb_firstn_tl _ _ _ H)) as H1.
  pose proof (forallb_firstn_tl _ _ _ (forallb_firstn_tl _ _ _ H)) as H2.
  destruct rv, l, user as [uid|]; cbn [load]; unfold_loaders; run;
    repeat step; assumption.
Qed.

Lemma reachable_three db :
  reachable_for 3 db = true ->
  Remote.unreachable db = false
  /\ hd false (tl (Remote.outages db)) = false
  /\ hd false (tl (tl (Remote.outages db))) = false.
Proof.
  unfold reachable_for, Remote.unreachable.
  destruct (Remote.outages db) as [|[|] [|[|] [|[|] l0]]]; cbn;
    try discriminate; intros _; repeat split; reflexivity.
Qed.

(** The state [acceptFriendRequest] reloads from, when its three round
    trips go through. *)
Lemma accept_goes_through rv embed uid requestId s request :
  requests_with requestId (net s) = [request] ->
  reachable_for 3 (net s) = true ->
  acceptFriendRequest rv embed (Some uid) requestId s =
  (true,
   after (load rv embed friend_requests_loader (Some uid) [])
     (after (load rv embed friends_loader (Some uid) [])
        (mkSys (ui s)
           (Remote.travelled (mkEvent UPDATE friend_requests_table false)
              (Operations.set_status accepted requestId
                 (Remote.travelled (mkEvent INSERT friends_table false)
                    (Operations.insert_friendship
                       (FriendRequestsRow.sender_id request)
                       (FriendRequestsRow.receiver_id request)
                       (Remote.travelled
                          (mkEvent SELECT friend_requests_table false)
                          (net s))))))))).
Proof.
  unfold requests_with. intros Hone H.
  apply reachable_three in H. destruct H as (H1 & H2 & H3).
  destruct rv; cbn [acceptFriendRequest load];
    unfold TwoTrip.acceptFriendRequest, FkJoin.acceptFriendRequest,
      Operations.acceptFriendRequest;
    run; rewrite H1, Hone; tidy;
    unfold Remote.unreachable; tidy; rewrite H2; tidy;
    unfold Operations.insert_friendship at 1; tidy; rewrite H3; tidy;
    name_calls; reflexivity.
Qed.

Lemma entries_on_same_tables a b :
  tables a = tables b ->
  (forall f, friend_entry a f = friend_entry b f)
  /\ (forall q, request_entry a q = request_entry b q)
  /\ (forall u, own_links u a = own_links u b)
  /\ (forall u, pending_for u a = pending_for u b).
Proof.
  unfold tables. intros H. injection H as Hf Hq _ _ Hu.
  unfold friend_entry, request_entry, own_links, pending_for, directory_row.
  rewrite Hf, Hq, Hu. repeat split.
Qed.

Lemma set_status_marks st requestId db q :
  In q (Remote.friend_requests (Operations.set_status st requestId db)) ->
  FriendRequestsRow.id q = requestId ->
  FriendRequestsRow.status q = st.
Proof.
  unfold Operations.set_status. tidy. intros Hin Hid.
  apply in_map_iff in Hin. destruct Hin as (x & Hx & _).
  destruct (String.eqb (FriendRequestsRow.id x) requestId) eqn:E.
  - subst q. reflexivity.
  - subst q. apply String.eqb_neq in E. contradiction.
Qed.

(** X18. The caller reads their write. When the seven round trips of an
    [acceptFriendRequest] on a known request go through (three for the
    operation, two for each reload), the caller's mirrors show what the
    tables now hold: the caller's links, with the friends' names, and the
    requests still pending for the caller, the accepted one no longer
    among them. When the caller is the receiver, the sender is among the
    friends shown. *)
Theorem accept_reloads_the_mirrors :
  forall uid requestId s request,
    let accept := TwoTrip.acceptFriendRequest (Some uid) requestId in
    let s' := after accept s in
    requests_with requestId (net s) = [request] ->
    reachable_for 7 (net s) = true ->
    result accept s = true
    /\ Mirror.friends (ui s') =
       map (friend_entry (net s')) (own_links uid (net s'))
    /\ Mirror.friendRequests (ui s') =
       map (request_entry (net s')) (pending_for uid (net s'))
    /\ Forall (fun q => FriendRequest.id q <> requestId)
              (Mirror.friendRequests (ui s'))
    /\ (FriendRequestsRow.receiver_id request = uid ->
        exists f, In f (Mirror.friends (ui s'))
                  /\ Friend.friend_id f = FriendRequestsRow.sender_id request).
Proof.
  intros uid requestId s request accept s' Hone Hreach.
  assert (H3 : reachable_for 3 (net s) = true).
  { unfold reachable_for in *. do 4 apply forallb_firstn_less in Hreach.
    exact Hreach. }
  pose proof (accept_goes_through two_trip directory_row uid requestId s
                request Hone H3) as E.
  cbn [acceptFriendRequest load] in E.
  set (s3 := mkSys (ui s) _) in E.
  assert (H4 : reachable_for 4 (net s3) = true).
  { unfold reachable_for in *. subst s3.
    unfold Operations.set_status, Operations.insert_friendship. tidy.
    do 3 apply forallb_firstn_tl in Hreach. exact Hreach. }
  set (s4 := after (TwoTrip.loadFriends (Some uid)) s3) in E.
  assert (Hs' : s' = after (TwoTrip.loadFriendRequests (Some uid)) s4).
  { unfold s', after. fold accept. unfold accept. rewrite E. reflexivity. }
  assert (Hr : result accept s = true).
  { unfold result, accept. rewrite E. reflexivity. }
  assert (H2 : reachable_for 2 (net s3) = true).
  { unfold reachable_for in *. do 2 apply forallb_firstn_less in H4.
    exact H4. }
  pose proof (friends_loaded uid s3
                (load_goes_through two_trip directory_row friends_loader
                   (Some uid) [] s3 H2)) as U4.
  fold s4 in U4.
  pose proof (load_takes_two two_trip directory_row friends_loader
                (Some uid) [] s3 2 H4) as H2'.
  cbn [load] in H2'. fold s4 in H2'.
  pose proof (requests_loaded uid s4
                (load_goes_through two_trip directory_row
                   friend_requests_loader (Some uid) [] s4 H2')) as [U5 _].
  rewrite <- Hs' in U5.
  destruct (load_frame two_trip directory_row friends_loader (Some uid) []
              s3) as (T4 & _).
  destruct (load_frame two_trip directory_row friend_requests_loader
              (Some uid) [] s4) as (T5 & _).
  cbn [load] in T4, T5. fold s4 in T4, T5. rewrite <- Hs' in T5.
  destruct (entries_on_same_tables (net s') (net s4) T5)
    as (F5 & Q5 & O5 & P5).
  destruct (entries_on_same_tables (net s4) (net s3) T4)
    as (F4 & _ & O4 & _).
  assert (Hfr : Mirror.friends (ui s') =
                map (friend_entry (net s')) (own_links uid (net s'))).
  { rewrite U5. cbn [Mirror.friends]. rewrite U4. cbn [Mirror.friends].
    rewrite O5, O4. apply map_ext. intros f. rewrite F5, F4. reflexivity. }
  assert (Hrq : Mirror.friendRequests (ui s') =
                map (request_entry (net s')) (pending_for uid (net s'))).
  { rewrite U5. cbn [Mirror.friendRequests]. rewrite P5.
    apply map_ext. intros q. rewrite Q5. reflexivity. }
  split; [exact Hr|]. split; [exact Hfr|]. split; [exact Hrq|].
  assert (Tq : Remote.friend_requests (net s') =
               Remote.friend_requests
                 (Operations.set_status accepted requestId (net s))).
  { unfold tables in T4, T5. injection T5 as _ ->. injection T4 as _ ->.
    reflexivity. }
  assert (Tf : In (FriendsRow.mk (mint (Remote.serial (net s)))
                     (FriendRequestsRow.receiver_id request)
                     (FriendRequestsRow.sender_id request)
                     (Remote.now (net s)))
                  (Remote.friends (net s'))).
  { unfold tables in T4, T5. injection T5 as ->. injection T4 as ->.
    subst s3. unfold Operations.set_status, Operations.insert_friendship.
    tidy. apply in_or_app. right. left. reflexivity. }
  split.
  - rewrite Hrq, Forall_map, Forall_forall. intros q Hq.
    cbn [request_entry FriendRequest.id]. intros Hid.
    unfold pending_for in Hq. apply filter_In in Hq. destruct Hq as [Hin Hp].
    rewrite Tq in Hin.
    rewrite (set_status_marks _ _ _ _ Hin Hid) in Hp.
    rewrite andb_false_r in Hp. discriminate.
  - intros Hme. eexists. split.
    + rewrite Hfr. apply in_map. unfold own_links. apply filter_In.
      split; [exact Tf|]. cbn [FriendsRow.user_id].
      rewrite Hme. apply String.eqb_refl.
    + reflexivity.
Qed.

(** ** When the first round trip fails *)

(** X19. The backend cannot be reached: [acceptFriendRequest],
    [rejectFriendRequest] and [removeFriend] report failure after that
    one round trip, with the tables and the mirrors as they were (nothing
    is reloaded). *)
Theorem unreachable_backend_changes_nothing :
  forall rv embed uid requestId friendId s,
    let unchanged (op : M bool) :=
      result op s = false
      /\ tables (net (after op s)) = tables (net s)
      /\ ui (after op s) = ui s
      /\ List.length (since (net s) (net (after op s))) = 1%nat in
    Remote.unreachable (net s) = true ->
    unchanged (acceptFriendRequest rv embed (Some uid) requestId)
    /\ unchanged (rejectFriendRequest rv embed (Some uid) requestId)
    /\ unchanged (removeFriend rv embed (Some uid) friendId).
Proof.
  intros rv embed uid requestId friendId s unchanged H. subst unchanged.
  destruct rv; cbn [acceptFriendRequest rejectFriendRequest removeFriend];
    unfold TwoTrip.acceptFriendRequest, FkJoin.acceptFriendRequest,
      TwoTrip.rejectFriendRequest, FkJoin.rejectFriendRequest,
      TwoTrip.removeFriend, FkJoin.removeFriend,
      Operations.acceptFriendRequest, Operations.rejectFriendRequest,
      Operations.removeFriend;
    run; rewrite H; tidy; journal; repeat split.
Qed.

(** ** The donor form *)

Lemma trimStart_blank s :
  DonatorForm.trimStart s = [] <->
  forallb DonatorForm.is_white_space s = true.
Proof.
  induction s as [|c s IH]; [split; reflexivity|].
  cbn [DonatorForm.trimStart forallb].
  destruct (DonatorForm.is_white_space c); cbn [andb]; [exact IH|].
  split; discriminate.
Qed.

(** [!name.trim()] holds for the names made of white space only. *)
Lemma trim_blank s :
  DonatorForm.falsy (DonatorForm.trim s) =
  forallb DonatorForm.is_white_space s.
Proof.
  unfold DonatorForm.trim.
  destruct (forallb DonatorForm.is_white_space s) eqn:E.
  - apply trimStart_blank in E. rewrite E. reflexivity.
  - destruct (DonatorForm.trimStart s) as [|c r] eqn:Es.
    + apply trimStart_blank in Es. congruence.
    + assert (Hc : DonatorForm.is_white_space c = false).
      { clear E. induction s as [|x s IH]; [discriminate|].
        cbn [DonatorForm.trimStart] in Es.
        destruct (DonatorForm.is_white_space x) eqn:Ex; [exact (IH Es)|].
        injection Es as -> _. exact Ex. }
      destruct (DonatorForm.trimStart (List.rev (c :: r))) as [|d r'] eqn:Er.
      * apply trimStart_blank in Er. rewrite forallb_forall in Er.
        rewrite (Er c) in Hc; [discriminate|].
        apply -> in_rev. left. reflexivity.
      * cbn [List.rev]. destruct (List.rev r' ++ [d]) eqn:Ee;
          [apply app_eq_nil in Ee; destruct Ee; discriminate | reflexivity].
Qed.

(** X23. A name that is empty or made of white space only is not submitted:
    [handleSubmit] returns at once, [onAdd] is not called, nothing is
    shown and the state is as before. The button is disabled for it. *)
Theorem blank_name_is_not_submitted :
  forall onAdd st,
    forallb DonatorForm.is_white_space (DonatorForm.donatorName st) = true ->
    DonatorForm.handleSubmit onAdd st = st
    /\ DonatorForm.disabled st = true.
Proof.
  intros onAdd st H.
  unfold DonatorForm.handleSubmit, DonatorForm.awaiting, DonatorForm.disabled.
  rewrite trim_blank, H. split; [reflexivity | apply orb_true_r].
Qed.

(** X24. Any other name is passed to [onAdd] once, as typed (not trimmed).
    While the answer is awaited [isSubmitting] is set and the button is
    disabled. Afterwards [isSubmitting] is reset and one message has been
    shown; the field is emptied when [onAdd] answered true and keeps the
    name when it answered false. *)
Theorem name_is_submitted_once :
  forall onAdd st,
    let name := DonatorForm.donatorName st in
    let st' := DonatorForm.handleSubmit onAdd st in
    forallb DonatorForm.is_white_space name = false ->
    (exists waiting,
        DonatorForm.awaiting st = Some waiting
        /\ DonatorForm.isSubmitting waiting = true
        /\ DonatorForm.disabled waiting = true)
    /\ DonatorForm.added st' = DonatorForm.added st ++ [name]
    /\ DonatorForm.isSubmitting st' = false
    /\ DonatorForm.donatorName st' = (if onAdd name then [] else name)
    /\ DonatorForm.alerts st' =
       DonatorForm.alerts st ++
       [if onAdd name
        then "Thank you! Your name has been added to our supporters list."
        else "Failed to add your name. Please try again."].
Proof.
  intros onAdd st name st' H. subst st' name.
  unfold DonatorForm.handleSubmit, DonatorForm.awaiting.
  rewrite trim_blank, H. split.
  - eexists. split; [reflexivity|]. split; reflexivity.
  - destruct (onAdd (DonatorForm.donatorName st)); repeat split.
Qed.

(** ** These theorems at work on the sample states *)

Lemma friends_of_ann :
  Mirror.friends
    (ui (after (TwoTrip.loadFriends (Some "A")) (mkSys shown befriended))) =
  [Friend.mk "f2" "A" "B" "Unknown" "bob@example.org" 1500%Z].
Proof.
  exact (f_equal Mirror.friends
           (loadFriends_shows_own_links "A" (mkSys shown befriended)
              eq_refl)).
Defined.

Lemma requests_for_bob :
  Mirror.friendRequests
    (ui (after (TwoTrip.loadFriendRequests (Some "B"))
           (mkSys shown courting))) =
  [FriendRequest.mk "r1" "A" "B" "Ann" "ann@example.org" pending 1200%Z].
Proof.
  exact (f_equal Mirror.friendRequests
           (proj1 (loadFriendRequests_shows_pending "B"
                     (mkSys shown courting) eq_refl))).
Defined.

Lemma sessions_ann_sees :
  Mirror.studySessions
    (ui (after (TwoTrip.loadStudySessions (Some "A") (Mirror.friends shown))
           (mkSys shown courting))) =
  [StudySession.mk "s1" "A" "Ann" studying (Some "maths") 1300%Z 1400%Z].
Proof.
  exact (f_equal Mirror.studySessions
           (loadStudySessions_shows_self_and_friends "A"
              (Mirror.friends shown) (mkSys shown courting) eq_refl)).
Defined.

Lemma messages_with_names :
  map GroupMessage.user_name
    (Mirror.groupMessages
       (ui (after (TwoTrip.loadGroupMessages (Some "A"))
              (mkSys shown befriended)))) =
  ["Ann"; "Unknown"; "Ann"].
Proof.
  exact (f_equal
           (fun m => map GroupMessage.user_name (Mirror.groupMessages m))
           (loadGroupMessages_shows_names "A" (mkSys shown befriended)
              eq_refl)).
Defined.

Lemma accept_of_a_key_nobody_has :
  result (acceptFriendRequest two_trip directory_row (Some "B") "r9")
    (mkSys shown courting) = false.
Proof.
  apply (accept_unknown_request two_trip directory_row (Some "B") "r9"
           (mkSys shown courting)).
  intros q H. discriminate H.
Defined.

Lemma accept_cut_short :
  List.length
    (Remote.friends
       (net (after (acceptFriendRequest two_trip directory_row (Some "B") "r1")
               (mkSys shown failing_third)))) = 2%nat
  /\ Remote.friend_requests
       (net (after (acceptFriendRequest two_trip directory_row (Some "B") "r1")
               (mkSys shown failing_third))) =
     [FriendRequestsRow.mk "r1" "A" "B" pending 1200%Z].
Proof.
  destruct (accept_is_not_undone two_trip directory_row "B" "r1"
              (mkSys shown failing_third)
              (FriendRequestsRow.mk "r1" "A" "B" pending 1200%Z) []
              eq_refl eq_refl) as (_ & Hf & Hq & _).
  split; [exact (f_equal (@List.length _) Hf) | exact Hq].
Defined.

Lemma bob_accepts_twice :
  exists request,
    requests_with "r1" courting = [request]
    /\ map (fun f => (FriendsRow.user_id f, FriendsRow.friend_id f))
         (Remote.friends
            (net (after (acceptFriendRequest two_trip directory_row
                           (Some "B") "r1")
                    (mkSys shown
                       (net (after (acceptFriendRequest two_trip
                                      directory_row (Some "B") "r1")
                               (mkSys shown courting))))))) =
       [("B", "A"); ("A", "B"); ("B", "A"); ("A", "B")].
Proof.
  destruct (accept_again_doubles_the_links two_trip directory_row
              (Some "B") (Some "B") "r1" (mkSys shown courting) shown
              eq_refl eq_refl) as (request & H1 & H2).
  exists request. split; [exact H1|].
  injection H1 as <-. exact H2.
Defined.

Lemma ann_asks_twice :
  exists target id1 id2 at1 at2,
    target <> "A"
    /\ Remote.friend_requests
         (net (after (Operations.sendFriendRequest (Some "A")
                        "bob@example.org")
                 (after (Operations.sendFriendRequest (Some "A")
                           "bob@example.org")
                    (mkSys Mirror.initial strangers)))) =
       [FriendRequestsRow.mk id1 "A" target pending at1;
        FriendRequestsRow.mk id2 "A" target pending at2].
Proof.
  exact (send_twice_leaves_two_requests "A" "bob@example.org"
           (mkSys Mirror.initial strangers) eq_refl eq_refl).
Defined.

Lemma ann_writes_to_the_group :
  exists earlier,
    Mirror.groupMessages
      (ui (after (TwoTrip.loadGroupMessages (Some "A"))
             (after (Operations.sendGroupMessage (Some "A") "back soon" None)
                (mkSys shown befriended)))) =
    earlier ++ [GroupMessage.mk "10" "A" "Ann" "back soon" [] 2000%Z].
Proof.
  apply (sent_message_is_shown_last "A" "back soon" None
           (mkSys shown befriended)).
  - repeat constructor.
  - reflexivity.
Defined.

Lemma bob_sees_ann :
  Mirror.friends
    (ui (after (TwoTrip.acceptFriendRequest (Some "B") "r1")
           (mkSys shown courting))) =
  [Friend.mk "20" "B" "A" "Ann" "ann@example.org" 2000%Z]
  /\ Mirror.friendRequests
       (ui (after (TwoTrip.acceptFriendRequest (Some "B") "r1")
              (mkSys shown courting))) = [].
Proof.
  destruct (accept_reloads_the_mirrors "B" "r1" (mkSys shown courting)
              (FriendRequestsRow.mk "r1" "A" "B" pending 1200%Z)
              eq_refl eq_refl) as (_ & Hf & Hq & _).
  exact (conj Hf Hq).
Defined.

Lemma nothing_gets_through :
  ui (after (removeFriend two_trip directory_row (Some "A") "B")
        (mkSys shown down)) = shown
  /\ result (rejectFriendRequest two_trip directory_row (Some "B") "r1")
       (mkSys shown down) = false.
Proof.
  destruct (unreachable_backend_changes_nothing two_trip directory_row
              "A" "r1" "B" (mkSys shown down) eq_refl)
    as (_ & _ & (_ & _ & H & _)).
  destruct (unreachable_backend_changes_nothing two_trip directory_row
              "B" "r1" "A" (mkSys shown down) eq_refl)
    as (_ & (H' & _) & _).
  exact (conj H H').
Defined.

Lemma blanks_are_not_a_name :
  DonatorForm.handleSubmit (fun _ => true)
    (DonatorForm.setDonatorName blank_name DonatorForm.initial) =
  DonatorForm.setDonatorName blank_name DonatorForm.initial.
Proof.
  apply (blank_name_is_not_submitted (fun _ => true)
           (DonatorForm.setDonatorName blank_name DonatorForm.initial)).
  reflexivity.
Defined.

Lemma padded_name_is_kept :
  DonatorForm.added
    (DonatorForm.handleSubmit (fun _ => false)
       (DonatorForm.setDonatorName padded_name DonatorForm.initial)) =
  [padded_name]
  /\ DonatorForm.donatorName
       (DonatorForm.handleSubmit (fun _ => false)
          (DonatorForm.setDonatorName padded_name DonatorForm.initial)) =
     padded_name.
Proof.
  destruct (name_is_submitted_once (fun _ => false)
              (DonatorForm.setDonatorName padded_name DonatorForm.initial)
              eq_refl) as (_ & H1 & _ & H2 & _).
  exact (conj H1 H2).
Defined.

(** ** Rejecting and removing: the reloads, and what is not checked *)

Lemma reachable_one db :
  reachable_for 1 db = true -> Remote.unreachable db = false.
Proof.
  unfold reachable_for, Remote.unreachable.
  destruct (Remote.outages db) as [|[|] l0]; cbn;
    try discriminate; reflexivity.
Qed.

Lemma reject_goes_through rv embed uid requestId s :
  reachable_for 1 (net s) = true ->
  rejectFriendRequest rv embed (Some uid) requestId s =
  (true,
   after (load rv embed friend_requests_loader (Some uid) [])
     (mkSys (ui s)
        (Remote.travelled (mkEvent UPDATE friend_requests_table false)
           (Operations.set_status rejected requestId (net s))))).
Proof.
  intros H. apply reachable_one in H.
  destruct rv; cbn [rejectFriendRequest load];
    unfold TwoTrip.rejectFriendRequest, FkJoin.rejectFriendRequest,
      Operations.rejectFriendRequest;
    run; rewrite H; tidy; name_calls; reflexivity.
Qed.

Lemma remove_goes_through rv embed uid friendId s :
  reachable_for 1 (net s) = true ->
  removeFriend rv embed (Some uid) friendId s =
  (true,
   after (load rv embed friends_loader (Some uid) [])
     (mkSys (ui s)
        (Remote.travelled (mkEvent DELETE friends_table false)
           (Operations.delete_links uid friendId (net s))))).
Proof.
  intros H. apply reachable_one in H.
  destruct rv; cbn [removeFriend load];
    unfold TwoTrip.removeFriend, FkJoin.removeFriend,
      Operations.removeFriend;
    run; rewrite H; tidy; name_calls; reflexivity.
Qed.

(** X20. When the three round trips of a [rejectFriendRequest] go through (one
    for the update, two for the reload), the request mirror shows the
    requests still pending for the caller, and the rejected one is not
    among them. *)
Theorem reject_reloads_the_requests :
  forall uid requestId s,
    let reject := TwoTrip.rejectFriendRequest (Some uid) requestId in
    let s' := after reject s in
    reachable_for 3 (net s) = true ->
    result reject s = true
    /\ Mirror.friendRequests (ui s') =
       map (request_entry (net s')) (pending_for uid (net s'))
    /\ Forall (fun q => FriendRequest.id q <> requestId)
              (Mirror.friendRequests (ui s')).
Proof.
  intros uid requestId s reject s' Hreach.
  assert (H1 : reachable_for 1 (net s) = true).
  { unfold reachable_for in *. do 2 apply forallb_firstn_less in Hreach.
    exact Hreach. }
  pose proof (reject_goes_through two_trip directory_row uid requestId s H1)
    as E.
  cbn [rejectFriendRequest load] in E.
  set (s1 := mkSys (ui s) _) in E.
  assert (H2 : reachable_for 2 (net s1) = true).
  { unfold reachable_for in *. subst s1. unfold Operations.set_status. tidy.
    apply forallb_firstn_tl in Hreach. exact Hreach. }
  assert (Hs' : s' = after (TwoTrip.loadFriendRequests (Some uid)) s1).
  { unfold s', after. fold reject. unfold reject. rewrite E. reflexivity. }
  assert (Hr : result reject s = true).
  { unfold result, reject. rewrite E. reflexivity. }
  pose proof (requests_loaded uid s1
                (load_goes_through two_trip directory_row
                   friend_requests_loader (Some uid) [] s1 H2)) as [U _].
  rewrite <- Hs' in U.
  destruct (load_frame two_trip directory_row friend_requests_loader
              (Some uid) [] s1) as (T & _).
  cbn [load] in T. rewrite <- Hs' in T.
  destruct (entries_on_same_tables (net s') (net s1) T) as (_ & Q & _ & P).
  assert (Hrq : Mirror.friendRequests (ui s') =
                map (request_entry (net s')) (pending_for uid (net s'))).
  { rewrite U. cbn [Mirror.friendRequests]. rewrite P.
    apply map_ext. intros q. rewrite Q. reflexivity. }
  split; [exact Hr|]. split; [exact Hrq|].
  rewrite Hrq, Forall_map, Forall_forall. intros q Hq.
  cbn [request_entry FriendRequest.id]. intros Hid.
  unfold pending_for in Hq. apply filter_In in Hq. destruct Hq as [Hin Hp].
  assert (Tq : Remote.friend_requests (net s') =
               Remote.friend_requests
                 (Operations.set_status rejected requestId (net s))).
  { unfold tables in T. injection T as _ ->. reflexivity. }
  rewrite Tq in Hin.
  rewrite (set_status_marks _ _ _ _ Hin Hid) in Hp.
  rewrite andb_false_r in Hp. discriminate.
Qed.

(** X21. When the three round trips of a [removeFriend] go through, the
    friends mirror shows the links the caller still has, and the removed
    friend is not among them. *)
Theorem remove_reloads_the_friends :
  forall uid friendId s,
    let remove := TwoTrip.removeFriend (Some uid) friendId in
    let s' := after remove s in
    reachable_for 3 (net s) = true ->
    result remove s = true
    /\ Mirror.friends (ui s') =
       map (friend_entry (net s')) (own_links uid (net s'))
    /\ Forall (fun f => Friend.friend_id f <> friendId)
              (Mirror.friends (ui s')).
Proof.
  intros uid friendId s remove s' Hreach.
  assert (H1 : reachable_for 1 (net s) = true).
  { unfold reachable_for in *. do 2 apply forallb_firstn_less in Hreach.
    exact Hreach. }
  pose proof (remove_goes_through two_trip directory_row uid friendId s H1)
    as E.
  cbn [removeFriend load] in E.
  set (s1 := mkSys (ui s) _) in E.
  assert (H2 : reachable_for 2 (net s1) = true).
  { unfold reachable_for in *. subst s1. unfold Operations.delete_links. tidy.
    apply forallb_firstn_tl in Hreach. exact Hreach. }
  assert (Hs' : s' = after (TwoTrip.loadFriends (Some uid)) s1).
  { unfold s', after. fold remove. unfold remove. rewrite E. reflexivity. }
  assert (Hr : result remove s = true).
  { unfold result, remove. rewrite E. reflexivity. }
  pose proof (friends_loaded uid s1
                (load_goes_through two_trip directory_row friends_loader
                   (Some uid) [] s1 H2)) as U.
  rewrite <- Hs' in U.
  destruct (load_frame two_trip directory_row friends_loader
              (Some uid) [] s1) as (T & _).
  cbn [load] in T. rewrite <- Hs' in T.
  destruct (entries_on_same_tables (net s') (net s1) T) as (F & _ & O & _).
  assert (Hfr : Mirror.friends (ui s') =
                map (friend_entry (net s')) (own_links uid (net s'))).
  { rewrite U. cbn [Mirror.friends]. rewrite O.
    apply map_ext. intros f. rewrite F. reflexivity. }
  split; [exact Hr|]. split; [exact Hfr|].
  rewrite Hfr, Forall_map, Forall_forall. intros f Hf.
  cbn [friend_entry Friend.friend_id]. intros Hid.
  unfold own_links in Hf. apply filter_In in Hf. destruct Hf as [Hin Hu].
  assert (Tf : Remote.friends (net s') =
               Remote.friends (Operations.delete_links uid friendId (net s))).
  { unfold tables in T. injection T as ->. reflexivity. }
  rewrite Tf in Hin. unfold Operations.delete_links in Hin. tidy.
  apply filter_In in Hin. destruct Hin as [_ Hl].
  unfold links in Hl. rewrite Hu, Hid, String.eqb_refl in Hl. discriminate.
Qed.

Lemma reject_frame rv embed user requestId s :
  let reject := rejectFriendRequest rv embed user requestId in
  Remote.friends (net (after reject s)) = Remote.friends (net s)
  /\ Remote.friend_requests (net (after reject s)) =
     (if result reject s
      then Remote.friend_requests
             (Operations.set_status rejected requestId (net s))
      else Remote.friend_requests (net s)).
Proof.
  destruct (reloads_read_only rv embed) as [_ HR].
  assert (HU : forall u s0,
             Mirror.friends
               (ui (after (load rv embed friend_requests_loader u []) s0)) =
             Mirror.friends (ui s0)).
  { intros u s0. apply (load_requests_ui rv embed u [] s0). }
  destruct rv;
    (destruct (reject_frame_with _ user requestId s HR HU)
       as (H1 & _ & _ & H2 & _); split; [exact H1 | exact H2]).
Qed.

(** X22. Nothing in [rejectFriendRequest] looks at the status of the request:
    rejecting a request that was accepted succeeds, by whoever. The
    request is then [rejected], and the friend links its acceptance made
    are all still there. *)
Theorem reject_after_accept_keeps_the_links :
  forall rv embed user user' requestId s theirs,
    let accept := acceptFriendRequest rv embed user requestId in
    let reject := rejectFriendRequest rv embed user' requestId in
    let s1 := mkSys theirs (net (after accept s)) in
    result accept s = true ->
    result reject s1 = true ->
    exists request,
      requests_with requestId (net s) = [request]
      /\ requests_with requestId (net (after reject s1)) =
         [FriendRequestsRow.mk (FriendRequestsRow.id request)
            (FriendRequestsRow.sender_id request)
            (FriendRequestsRow.receiver_id request) rejected
            (FriendRequestsRow.created_at request)]
      /\ Remote.friends (net (after reject s1)) =
         Remote.friends (net s) ++
         [FriendsRow.mk (mint (Remote.serial (net s)))
            (FriendRequestsRow.receiver_id request)
            (FriendRequestsRow.sender_id request) (Remote.now (net s));
          FriendsRow.mk (mint (Remote.serial (net s) + 1))
            (FriendRequestsRow.sender_id request)
            (FriendRequestsRow.receiver_id request) (Remote.now (net s))].
Proof.
  intros rv embed user user' requestId s theirs accept reject s1 H1 H2.
  destruct (accept_succeeded _ _ _ _ _ H1) as (q & Hq & Hf & Hr).
  fold accept in Hf, Hr.
  destruct (reject_frame rv embed user' requestId s1) as [Ff Fq].
  fold reject in Ff, Fq. rewrite H2 in Fq.
  exists q. split; [exact Hq|]. split.
  - unfold requests_with in *. rewrite Fq, filter_set_status.
    subst s1. cbn [net]. rewrite Hr, filter_set_status, Hq. reflexivity.
  - rewrite Ff. subst s1. cbn [net]. exact Hf.
Qed.

Lemma bob_declines :
  Mirror.friendRequests
    (ui (after (TwoTrip.rejectFriendRequest (Some "B") "r1")
           (mkSys shown courting))) = []
  /\ result (TwoTrip.rejectFriendRequest (Some "B") "r1")
       (mkSys shown courting) = true.
Proof.
  destruct (reject_reloads_the_requests "B" "r1" (mkSys shown courting)
              eq_refl) as (Hr & Hq & _).
  exact (conj Hq Hr).
Defined.

Lemma ann_drops_bob :
  Mirror.friends
    (ui (after (TwoTrip.removeFriend (Some "A") "B")
           (mkSys shown befriended))) = []
  /\ Forall (fun f => Friend.friend_id f <> "B")
       (Mirror.friends
          (ui (after (TwoTrip.removeFriend (Some "A") "B")
                 (mkSys shown befriended)))).
Proof.
  destruct (remove_reloads_the_friends "A" "B" (mkSys shown befriended)
              eq_refl) as (_ & Hf & Hn).
  exact (conj Hf Hn).
Defined.

Lemma bob_changes_his_mind :
  exists request,
    requests_with "r1" courting = [request]
    /\ requests_with "r1"
         (net (after (rejectFriendRequest two_trip directory_row (Some "B")
                        "r1")
                 (mkSys shown
                    (net (after (acceptFriendRequest two_trip directory_row
                                   (Some "B") "r1")
                            (mkSys shown courting)))))) =
       [FriendRequestsRow.mk "r1" "A" "B" rejected 1200%Z]
    /\ List.length
         (Remote.friends
            (net (after (rejectFriendRequest two_trip directory_row
                           (Some "B") "r1")
                    (mkSys shown
                       (net (after (acceptFriendRequest two_trip
                                      directory_row (Some "B") "r1")
                               (mkSys shown courting))))))) = 2%nat.
Proof.
  destruct (reject_after_accept_keeps_the_links two_trip directory_row
              (Some "B") (Some "B") "r1" (mkSys shown courting) shown
              eq_refl eq_refl) as (request & H1 & H2 & H3).
  exists request. split; [exact H1|].
  injection H1 as <-.
  split; [exact H2 | exact (f_equal (@List.length _) H3)].
Defined.

Lemma listener_is_left_alone :
  exists cleanup,
    result (Operations.setupRealtimeSubscriptions (Some "A"))
      (mkSys shown listening) = Some cleanup
    /\ Remote.channels
         (net (after (Operations.setupRealtimeSubscriptions (Some "A"))
                 (mkSys shown listening))) =
       mkSubscription "donators" None users_table :: installed
    /\ Remote.channels
         (net (after cleanup
                 (after (Operations.setupRealtimeSubscriptions (Some "A"))
                    (mkSys shown listening)))) =
       [mkSubscription "donators" None users_table].
Proof.
  destruct (cleanup_undoes_setup "A" (mkSys shown listening) eq_refl)
    as (cleanup & H1 & H2 & H3 & _).
  exists cleanup. exact (conj H1 (conj H2 H3)).
Defined.
